(** * django-eav2: the attribute model and its value protocol

    A shallow embedding of [eav/models/attribute.py]: the [Attribute] model
    with its validator dispatch, its invariant check, its save and the
    upsert-or-delete protocol [save_value], over an explicit model of the
    relational store they talk to. *)

From Stdlib Require Import ZArith QArith.
From stdpp Require Import base option list strings gmap fin_maps.

Local Open Scope string_scope.

(** ** Python values *)

(** An [EnumValue] row as seen from Python: its primary key and its label
    (the model field [value]). *)
Record EnumValue := mkEnumValue { ev_pk : nat; ev_value : string }.

(** The raw values handed to [validate_value] and [save_value].  A float is
    the rational number it denotes, or [PNaN], the float that is not a
    number; the infinities are left out.  Lists stand for the collections
    stored by the csv and json datatypes. *)
#[local] Set Warnings "-register-all".
Inductive PyVal : Type :=
| PNone
| PBool (b : bool)
| PInt (z : Z)
| PFloat (q : Q)
| PStr (s : string)
| PList (items : list PyVal)
| PEnumValue (e : EnumValue)
| PNaN.

(** [bool] is a subclass of [int] and numbers of different types compare by
    value. *)
Definition as_number (v : PyVal) : option Q :=
  match v with
  | PBool b => Some (inject_Z (if b then 1 else 0))
  | PInt z => Some (inject_Z z)
  | PFloat q => Some q
  | _ => None
  end.

(** Python's [a == b]: [None] equals only [None], numbers compare by value,
    strings and lists structurally, model instances by primary key, and
    values of unrelated types are unequal.  [PNaN] is no number and equals
    nothing, itself included. *)
Fixpoint py_eq (a b : PyVal) : bool :=
  match a, b with
  | PNone, PNone => true
  | PStr s, PStr t => bool_decide (s = t)
  | PList xs, PList ys =>
      (fix all_eq (xs ys : list PyVal) : bool :=
         match xs, ys with
         | [], [] => true
         | x :: xs', y :: ys' => py_eq x y && all_eq xs' ys'
         | _, _ => false
         end) xs ys
  | PEnumValue e, PEnumValue f => bool_decide (ev_pk e = ev_pk f)
  | _, _ =>
      match as_number a, as_number b with
      | Some p, Some q => Qeq_bool p q
      | _, _ => false
      end
  end.

(** Python's [a != b]. *)
Definition py_ne (a b : PyVal) : bool := negb (py_eq a b).

(** No float that is not a number occurs in the value. *)
Fixpoint nan_free (v : PyVal) : bool :=
  match v with
  | PNaN => false
  | PList items =>
      (fix all_free (items : list PyVal) : bool :=
         match items with
         | [] => true
         | x :: rest => nan_free x && all_free rest
         end) items
  | _ => true
  end.

(** [v is None]. *)
Definition is_None (v : PyVal) : bool :=
  match v with PNone => true | _ => false end.

(** The test [value is None or value == ''] of [save_value]. *)
Definition is_empty (value : PyVal) : bool :=
  is_None value || py_eq value (PStr "").

(** ** Exceptions and the store monad *)

(** A message of a [ValidationError]: the template, and the value and the
    attribute that are substituted into it, when it has such places. *)
Record Message := mkMessage {
  msg_template : string;
  msg_val : option PyVal;
  msg_attr : option string
}.

Inductive Exn : Type :=
| DoesNotExist
| MultipleObjectsReturned
| ValidationError (errors : list Message)
| KeyError (key : string)
| AttributeError
| ValueError
| IntegrityError.

(** ** The data model *)

(** [EnumGroup]: a name and the [EnumValue] rows linked to it through the
    many-to-many relation [values]. *)
Record EnumGroup := mkEnumGroup { eg_name : string; values : list EnumValue }.

(** The fields of [Attribute].  [attr_pk] is the primary key [id], absent
    until the first successful save; [slug] is [None] or a string, as on a
    freshly constructed instance; [created] is the time of construction and
    [modified], declared [auto_now], the time of the last save. *)
Record Attribute := mkAttribute {
  attr_pk : option nat;
  datatype : string;
  name : string;
  slug : option string;
  required : bool;
  enum_group : option EnumGroup;
  description : option string;
  display_order : nat;
  modified : nat;
  created : nat
}.

(** A host entity, as far as this layer sees it: the content type that
    [ContentType.objects.get_for_model] resolves it to and its primary
    key, an integer or a UUID. *)
Inductive PkValue : Type :=
| PkInt (n : Z)
| PkUuid (u : string).

#[global] Instance PkValue_eq_dec : EqDecision PkValue.
Proof. solve_decision. Defined.

Record Entity := mkEntity { content_type : nat; pk : PkValue }.

Definition get_for_model (entity : Entity) : nat := content_type entity.

(** Modelled from the spec: [eav.logic.entity_pk.get_entity_pk_type] is not
    part of the sources at hand.  The name of the [Value] field that holds
    the primary key of the entity: integer-keyed and text-keyed hosts
    resolve to different matching fields. *)
Definition get_entity_pk_type (entity : Entity) : string :=
  match pk entity with
  | PkInt _ => "entity_id"
  | PkUuid _ => "entity_uuid"
  end.

Module Value.

(** Modelled from the spec: the model [eav.models.Value] is not part of the
    sources at hand.  A row binds one attribute to one host entity, named by
    its content type and by its primary key in the field that fits the kind
    of key; [value] is the slot selected by the datatype of the owning
    attribute, [PNone] while it is unset; [modified] is the time of the last
    save. *)
Record t := mk {
  entity_ct : nat;
  attribute : nat;
  entity_id : option PkValue;
  entity_uuid : option PkValue;
  value : PyVal;
  created : nat;
  modified : nat
}.

(** The assignment [value_obj.value = v]. *)
Definition set_value (v : PyVal) (o : t) : t :=
  mk (entity_ct o) (attribute o) (entity_id o) (entity_uuid o) v
     (created o) (modified o).

(** [auto_now]: every save stamps the row. *)
Definition touch (now : nat) (o : t) : t :=
  mk (entity_ct o) (attribute o) (entity_id o) (entity_uuid o) (value o)
     (created o) now.

End Value.

(** The keyword arguments [entity_filter] of [save_value]: the content type,
    the attribute, which stands for its primary key, and the primary key of
    the entity under the field name given by [get_entity_pk_type]. *)
Record EntityFilter := mkEntityFilter {
  f_entity_ct : nat;
  f_attribute : option nat;
  f_pk_field : string;
  f_pk : PkValue
}.

(** The column a field name of the filter refers to. *)
Definition column (field : string) (o : Value.t) : option PkValue :=
  if bool_decide (field = "entity_uuid")
  then Value.entity_uuid o
  else Value.entity_id o.

(** A row satisfies the filter when it agrees on all three entries. *)
Definition matches (f : EntityFilter) (o : Value.t) : bool :=
  bool_decide (Value.entity_ct o = f_entity_ct f)
  && bool_decide (Some (Value.attribute o) = f_attribute f)
  && bool_decide (column (f_pk_field f) o = Some (f_pk f)).

(** ** The store *)

(** The two tables, keyed by primary key, and [history]: every state the
    [Value] table was committed in, newest first.  Each write statement
    commits at once, there is no enclosing transaction in [save_value]. *)
Record DB := mkDB {
  value_table : gmap nat Value.t;
  attribute_table : gmap nat Attribute;
  history : list (gmap nat Value.t)
}.

(** Computations that read and write the store and may raise.  An exception
    leaves the store as it was when it was raised. *)
Definition M (A : Type) : Type := DB → (Exn + A) * DB.

#[global] Instance M_ret : MRet M := λ A x db, (inr x, db).

#[global] Instance M_bind : MBind M := λ A B k m db,
  match m db with
  | (inl e, db') => (inl e, db')
  | (inr x, db') => k x db'
  end.

Definition raise {A : Type} (e : Exn) : M A := λ db, (inl e, db).

(** [try: m except DoesNotExist: ...]: the result of [m], or [None] when
    [m] raised [DoesNotExist]; any other exception goes on. *)
Definition except_DoesNotExist {A : Type} (m : M A) : M (option A) := λ db,
  match m db with
  | (inl DoesNotExist, db') => (inr None, db')
  | (inl e, db') => (inl e, db')
  | (inr x, db') => (inr (Some x), db')
  end.

(** A write statement: the new state of the [Value] table is committed. *)
Definition commit (tbl : gmap nat Value.t) : M unit := λ db,
  (inr tt, mkDB tbl (attribute_table db) (tbl :: history db)).

(** The rows of the [Value] table that satisfy a filter. *)
Definition select (f : EntityFilter) (tbl : gmap nat Value.t)
  : gmap nat Value.t :=
  filter (λ kv, matches f kv.2 = true) tbl.

(** [QuerySet.get]: the one row that satisfies the filter, with its primary
    key; [DoesNotExist] when there is none, [MultipleObjectsReturned] when
    there are several. *)
Definition get (f : EntityFilter) : M (nat * Value.t) := λ db,
  match map_to_list (select f (value_table db)) with
  | [] => (inl DoesNotExist, db)
  | [kv] => (inr kv, db)
  | _ => (inl MultipleObjectsReturned, db)
  end.

(** [self.value_set.get] on the keyword arguments [entity_filter]: the
    reverse relation of an attribute that has no primary key yet cannot be
    used. *)
Definition value_set_get (self : Attribute) (f : EntityFilter)
  : M (nat * Value.t) :=
  match attr_pk self with
  | None => raise ValueError
  | Some _ => get f
  end.

(** The row [Value.objects.create] builds from [entity_filter], for the
    attribute with primary key [a]: the identity fields of the filter, no
    payload yet. *)
Definition new_value (a : nat) (f : EntityFilter) (now : nat) : Value.t :=
  Value.mk (f_entity_ct f) a
    (if bool_decide (f_pk_field f = "entity_uuid") then None
     else Some (f_pk f))
    (if bool_decide (f_pk_field f = "entity_uuid") then Some (f_pk f)
     else None)
    PNone now now.

(** Modelled from the spec: [Value.objects.create] on [entity_filter].  An
    attribute without a primary key cannot be referred to.  The store holds
    a uniqueness constraint on the identity of a [Value]; a second row with
    the identity of an existing one is refused, otherwise the row is
    inserted under a fresh primary key and committed. *)
Definition objects_create (f : EntityFilter) (now : nat)
  : M (nat * Value.t) := λ db,
  match f_attribute f with
  | None => (inl ValueError, db)
  | Some a =>
      if bool_decide (size (select f (value_table db)) = 0)
      then
        let k := fresh (dom (value_table db)) in
        let o := new_value a f now in
        (_ ← commit (<[k := o]> (value_table db)); mret (k, o)) db
      else (inl IntegrityError, db)
  end.

(** Modelled from the spec: [value_obj.delete()] removes the row. *)
Definition delete_obj (value_obj : nat * Value.t) : M unit := λ db,
  commit (delete value_obj.1 (value_table db)) db.

(** Modelled from the spec: [value_obj.save()] persists the row under its
    primary key and stamps it. *)
Definition save_obj (value_obj : nat * Value.t) (now : nat) : M unit := λ db,
  commit (<[value_obj.1 := Value.touch now value_obj.2]> (value_table db)) db.

(** Computations that only raise. *)
#[global] Instance Exn_ret : MRet (sum Exn) := λ A x, inr x.

#[global] Instance Exn_bind : MBind (sum Exn) := λ A B k m,
  match m with
  | inl e => inl e
  | inr x => k x
  end.

(** ** Attribute: constants *)

Definition TYPE_TEXT : string := "text".
Definition TYPE_FLOAT : string := "float".
Definition TYPE_INT : string := "int".
Definition TYPE_DATE : string := "date".
Definition TYPE_BOOLEAN : string := "bool".
Definition TYPE_OBJECT : string := "object".
Definition TYPE_ENUM : string := "enum".
Definition TYPE_JSON : string := "json".
Definition TYPE_CSV : string := "csv".

Definition DATATYPE_CHOICES : list (string * string) :=
  [ (TYPE_TEXT, "Text");
    (TYPE_DATE, "Date");
    (TYPE_FLOAT, "Float");
    (TYPE_INT, "Integer");
    (TYPE_BOOLEAN, "True / False");
    (TYPE_OBJECT, "Django Object");
    (TYPE_ENUM, "Multiple Choice");
    (TYPE_JSON, "JSON Object");
    (TYPE_CSV, "Comma-Separated-Value") ].

(** The functions imported from [eav.validators], by name. *)
Inductive Validator : Type :=
| validate_bool
| validate_csv
| validate_date
| validate_enum
| validate_float
| validate_int
| validate_json
| validate_object
| validate_text.

#[global] Instance Validator_eq_dec : EqDecision Validator.
Proof. solve_decision. Defined.

(** The dictionary built in [get_validators]. *)
Definition DATATYPE_VALIDATORS : gmap string Validator :=
  list_to_map
    [ ("text", validate_text);
      ("float", validate_float);
      ("int", validate_int);
      ("date", validate_date);
      ("bool", validate_bool);
      ("object", validate_object);
      ("enum", validate_enum);
      ("json", validate_json);
      ("csv", validate_csv) ].

(** ** Attribute: the methods that need nothing from outside *)

(** [get_datatype_display]: the label of the datatype in the choices, the
    raw value when it is not one of them. *)
Definition get_datatype_display (self : Attribute) : string :=
  default (datatype self)
          ((list_to_map DATATYPE_CHOICES : gmap string string)
             !! datatype self).

(** [__str__]. *)
Definition __str__ (self : Attribute) : string :=
  name self +:+ " (" +:+ get_datatype_display self +:+ ")".

(** [get_validators]: the one validator of the datatype, as a list; a
    datatype that is no key of the dictionary raises [KeyError]. *)
Definition get_validators (self : Attribute) : Exn + list Validator :=
  match DATATYPE_VALIDATORS !! datatype self with
  | Some validator => inr [validator]
  | None => inl (KeyError (datatype self))
  end.

(** [self.enum_group.values.filter(value=value).exists()]: some member of
    the group carries the label. *)
Definition values_filter_exists (g : EnumGroup) (value : PyVal) : bool :=
  existsb (λ e, py_eq (PStr (ev_value e)) value) (values g).

Definition not_a_valid_choice (value : PyVal) (self : Attribute) : Message :=
  mkMessage "%(val)s is not a valid choice for %(attr)s"
            (Some value) (Some (__str__ self)).

Definition must_set_choice_group : Message :=
  mkMessage "You must set the choice group for multiple choice attributes"
            None None.

Definition only_assign_choice_group : Message :=
  mkMessage
    "You can only assign a choice group to multiple choice attributes"
    None None.

(** [clean]. *)
Definition clean (self : Attribute) : Exn + unit :=
  if bool_decide (datatype self = TYPE_ENUM)
     && negb (bool_decide (is_Some (enum_group self)))
  then inl (ValidationError [must_set_choice_group])
  else
    if negb (bool_decide (datatype self = TYPE_ENUM))
       && bool_decide (is_Some (enum_group self))
    then inl (ValidationError [only_assign_choice_group])
    else inr tt.

(** [get_choices]: reading [values] off a missing group raises
    [AttributeError]. *)
Definition get_choices (self : Attribute) : Exn + option (list EnumValue) :=
  if bool_decide (datatype self = TYPE_ENUM)
  then match enum_group self with
       | Some g => inr (Some (values g))
       | None => inl AttributeError
       end
  else inr None.

(** ** Attribute: save_value *)

(** What follows the lookup in [save_value], once [value_obj] is bound. *)
Definition write_value (value_obj : nat * Value.t) (value : PyVal)
    (now : nat) : M unit :=
  if is_empty value
  then delete_obj value_obj
  else
    if py_ne value (Value.value value_obj.2)
    then save_obj (value_obj.1, Value.set_value value value_obj.2) now
    else mret tt.

(** [save_value], called at time [now]. *)
Definition save_value (self : Attribute) (entity : Entity) (value : PyVal)
    (now : nat) : M unit :=
  let ct := get_for_model entity in
  let entity_filter :=
    mkEntityFilter ct (attr_pk self) (get_entity_pk_type entity)
      (pk entity) in
  found ← except_DoesNotExist (value_set_get self entity_filter);
  match found with
  | None =>
      if is_empty value
      then mret tt
      else
        value_obj ← objects_create entity_filter now;
        write_value value_obj value now
  | Some value_obj => write_value value_obj value now
  end.

(** ** Attribute: the methods that call outside this file *)

Definition with_slug (s : string) (self : Attribute) : Attribute :=
  mkAttribute (attr_pk self) (datatype self) (name self) (Some s)
    (required self) (enum_group self) (description self)
    (display_order self) (modified self) (created self).

Definition with_pk (k : nat) (self : Attribute) : Attribute :=
  mkAttribute (Some k) (datatype self) (name self) (slug self)
    (required self) (enum_group self) (description self)
    (display_order self) (modified self) (created self).

(** [auto_now]: every save stamps the attribute. *)
Definition with_modified (now : nat) (self : Attribute) : Attribute :=
  mkAttribute (attr_pk self) (datatype self) (name self) (slug self)
    (required self) (enum_group self) (description self)
    (display_order self) now (created self).

(** [not self.slug]: the slug is [None] or the empty string. *)
Definition slug_is_blank (self : Attribute) : bool :=
  match slug self with
  | None => true
  | Some s => bool_decide (s = "")
  end.

(** Some other row of the [Attribute] table already carries the slug. *)
Definition slug_taken (db : DB) (self : Attribute) : bool :=
  bool_decide
    (map_Exists (λ k a, slug a = slug self ∧ attr_pk self ≠ Some k)
                (attribute_table db)).

Definition already_exists : Message :=
  mkMessage "%(model_name)s with this %(field_label)s already exists."
            None None.

(** [Model.validate_unique]: [slug] is declared [unique=True]; a slug of
    [None] is not looked up. *)
Definition validate_unique (db : DB) (self : Attribute)
  : list (string * Message) :=
  if bool_decide (is_Some (slug self)) && slug_taken db self
  then [("slug", already_exists)]
  else [].

(** The messages a call raised as [ValidationError], filed under a key. *)
Definition raised_under {A : Type} (key : string) (r : Exn + A)
  : list (string * Message) :=
  match r with
  | inl (ValidationError errors) => (λ m, (key, m)) <$> errors
  | _ => []
  end.

(** [Model.save] of the framework, at time [now]: the unique index on
    [slug] refuses a duplicate and a null; otherwise the row is stamped and
    written under the primary key of the instance, a fresh one when it has
    none. *)
Definition Model_save (self : Attribute) (now : nat) : M Attribute := λ db,
  if negb (bool_decide (is_Some (slug self))) || slug_taken db self
  then (inl IntegrityError, db)
  else
    let k := default (fresh (dom (attribute_table db))) (attr_pk self) in
    let self := with_modified now (with_pk k self) in
    (inr self,
     mkDB (value_table db) (<[k := self]> (attribute_table db)) (history db)).

Section External.

(** The validators of [eav.validators] are not part of the sources at hand:
    [run_validator] says what each of them does on a value. *)
Variable run_validator : Validator → PyVal → Exn + unit.

(** [eav.logic.slug.generate_slug] is not part of the sources at hand; by
    the spec it is a deterministic function of the name. *)
Variable generate_slug : string → string.

(** [Model.clean_fields] of the framework, with the field classes of
    [eav.fields]: the errors of the single fields, each under the name of
    its field. *)
Variable clean_fields : DB → Attribute → list (string * Message).

(** The loop [for validator in self.get_validators(): validator(value)]. *)
Fixpoint run_validators (validators : list Validator) (value : PyVal)
  : Exn + unit :=
  match validators with
  | [] => inr tt
  | validator :: rest =>
      _ ← run_validator validator value; run_validators rest value
  end.

(** [validate_value]. *)
Definition validate_value (self : Attribute) (value : PyVal) : Exn + unit :=
  validators ← get_validators self;
  _ ← run_validators validators value;
  if bool_decide (datatype self = TYPE_ENUM)
  then
    let value :=
      match value with
      | PEnumValue e => PStr (ev_value e)
      | _ => value
      end in
    match enum_group self with
    | None => inl AttributeError
    | Some g =>
        if values_filter_exists g value
        then inr tt
        else inl (ValidationError [not_a_valid_choice value self])
    end
  else inr tt.

(** [Model.full_clean] of the framework: the errors of [clean_fields], of
    [clean] and, for the fields without an error so far, of
    [validate_unique] are gathered and raised together. *)
Definition full_clean (self : Attribute) : M unit := λ db,
  let errors := clean_fields db self in
  let errors := (errors ++ raised_under "__all__" (clean self))%list in
  let errors :=
    (errors ++ (if bool_decide ("slug" ∈ errors.*1) then []
                else validate_unique db self))%list in
  match errors with
  | [] => (inr tt, db)
  | _ => (inl (ValidationError errors.*2), db)
  end.

(** [save], called at time [now]. *)
Definition save (now : nat) (self : Attribute) : M Attribute :=
  let self :=
    if slug_is_blank self
    then with_slug (generate_slug (name self)) self
    else self in
  _ ← full_clean self;
  Model_save self now.

End External.

(** ** Notions the statements are written in *)

(** The rows of the [Value] table with the composite identity of attribute
    [self_pk] and [entity]: the rows [save_value] looks up. *)
Definition rows_for (self_pk : nat) (entity : Entity) (db : DB)
  : gmap nat Value.t :=
  select (mkEntityFilter (get_for_model entity) (Some self_pk)
            (get_entity_pk_type entity) (pk entity))
         (value_table db).

(** A finite sequence of [save_value] calls for one attribute and one
    entity, each with its value and its time. *)
Fixpoint save_values (self : Attribute) (entity : Entity)
    (calls : list (PyVal * nat)) : M unit :=
  match calls with
  | [] => mret tt
  | (value, now) :: rest =>
      _ ← save_value self entity value now; save_values self entity rest
  end.

(** No row of the table has a null or empty payload. *)
Definition no_empty_payload (tbl : gmap nat Value.t) : Prop :=
  map_Forall (λ _ o, is_empty (Value.value o) = false) tbl.

(** The states of the [Value] table committed by running [m] on [db],
    newest first. *)
Definition committed_by {A : Type} (m : M A) (db : DB)
  : list (gmap nat Value.t) :=
  let h := history (m db).2 in
  take (length h - length (history db)) h.

(** The label a raw value or an [EnumValue] reference stands for. *)
Definition label_of (x : PyVal) : option string :=
  match x with
  | PStr s => Some s
  | PEnumValue e => Some (ev_value e)
  | _ => None
  end.

(** The labels of the members of a group. *)
Definition labels (g : EnumGroup) : list string := ev_value <$> values g.

(** The closed set of datatype tags. *)
Definition DATATYPES : list string :=
  ["text"; "float"; "int"; "date"; "bool"; "object"; "enum"; "json"; "csv"].

(** The five cases of the protocol, as a relation between the store before
    and after a call: nothing to delete, create, delete, update, keep. *)
Inductive save_value_step (self_pk : nat) (entity : Entity) (value : PyVal)
    (now : nat) (db : DB) : DB → Prop :=
| step_absent_empty :
    rows_for self_pk entity db = ∅ →
    is_empty value = true →
    save_value_step self_pk entity value now db db
| step_create k created saved :
    rows_for self_pk entity db = ∅ →
    is_empty value = false →
    k = fresh (dom (value_table db)) →
    created = <[k := new_value self_pk
                       (mkEntityFilter (get_for_model entity) (Some self_pk)
                          (get_entity_pk_type entity) (pk entity)) now]>
                (value_table db) →
    saved = <[k := Value.touch now
                     (Value.set_value value
                        (new_value self_pk
                           (mkEntityFilter (get_for_model entity)
                              (Some self_pk) (get_entity_pk_type entity)
                              (pk entity))
                           now))]> created →
    save_value_step self_pk entity value now db
      (mkDB saved (attribute_table db) (saved :: created :: history db))
| step_delete k o deleted :
    rows_for self_pk entity db = {[k := o]} →
    is_empty value = true →
    deleted = delete k (value_table db) →
    save_value_step self_pk entity value now db
      (mkDB deleted (attribute_table db) (deleted :: history db))
| step_update k o saved :
    rows_for self_pk entity db = {[k := o]} →
    is_empty value = false →
    py_ne value (Value.value o) = true →
    saved = <[k := Value.touch now (Value.set_value value o)]>
              (value_table db) →
    save_value_step self_pk entity value now db
      (mkDB saved (attribute_table db) (saved :: history db))
| step_keep k o :
    rows_for self_pk entity db = {[k := o]} →
    is_empty value = false →
    py_ne value (Value.value o) = false →
    save_value_step self_pk entity value now db db.

(** ** Sample data *)

Module Sample.

Definition yes := mkEnumValue 1 "yes".
Definition no := mkEnumValue 2 "no".
Definition unknown := mkEnumValue 3 "unknown".
Definition ynu := mkEnumGroup "Yes / No / Unknown" [yes; no; unknown].

Definition height : Attribute :=
  mkAttribute (Some 1) TYPE_INT "Height" (Some "height") false None None 1 0 0.

Definition fever : Attribute :=
  mkAttribute (Some 2) TYPE_ENUM "has fever?" (Some "has_fever") false
    (Some ynu) None 1 0 0.

Definition eye_color : Attribute :=
  mkAttribute None TYPE_TEXT "Eye Color" None false None None 1 0 0.

Definition enum_without_group : Attribute :=
  mkAttribute None TYPE_ENUM "has fever?" None false None None 1 0 0.

Definition text_with_group : Attribute :=
  mkAttribute None TYPE_TEXT "Color" None false (Some ynu) None 1 0 0.

Definition patient1 : Entity := mkEntity 5 (PkInt 1).

Definition empty_db : DB := mkDB ∅ ∅ [].

(** Validators that accept every value. *)
Definition accept_all (validator : Validator) (value : PyVal) : Exn + unit :=
  inr tt.

(** A slug function that keeps the name as it is. *)
Definition keep_name (name : string) : string := name.

(** Field validation that finds nothing. *)
Definition no_field_errors (db : DB) (self : Attribute)
  : list (string * Message) := [].

(** The store after the height of [patient1] has been written once. *)
Definition db_with_height : DB :=
  (save_value height patient1 (PInt 178) 10 empty_db).2.

(** A store in which the slug of [eye_color] is taken by another row. *)
Definition db_with_eye_color : DB :=
  mkDB ∅ {[ 4 := with_pk 4 (with_slug "Eye Color" eye_color) ]} [].

End Sample.

(** ** Attribute: the remaining methods *)

(** [natural_key]: the name and the slug. *)
Definition natural_key (self : Attribute) : string * option string :=
  (name self, slug self).

(** The property [help_text]. *)
Definition help_text (self : Attribute) : option string := description self.

(** ** Further notions *)

(** The unique index on [slug]: no two rows of the [Attribute] table carry
    the same slug. *)
Definition unique_slugs (tbl : gmap nat Attribute) : Prop :=
  ∀ k1 k2 a1 a2,
    tbl !! k1 = Some a1 → tbl !! k2 = Some a2 → slug a1 = slug a2 → k1 = k2.

(** The filter [save_value] builds for the attribute with primary key
    [self_pk] and [entity]. *)
Definition filter_for (self_pk : nat) (entity : Entity) : EntityFilter :=
  mkEntityFilter (get_for_model entity) (Some self_pk)
    (get_entity_pk_type entity) (pk entity).

Module Fixture.

(** A [Value] table that breaks the uniqueness constraint: two rows for
    [Sample.height] and [Sample.patient1]. *)
Definition duplicated : DB :=
  mkDB {[ 0 := Value.mk 5 1 (Some (PkInt 1)) None (PInt 178) 1 1;
          1 := Value.mk 5 1 (Some (PkInt 1)) None (PInt 180) 2 2 ]}
       ∅ [].

(** The store after a float that is not a number has been written as the
    height of [Sample.patient1]. *)
Definition db_with_NaN : DB :=
  (save_value Sample.height Sample.patient1 PNaN 10 Sample.empty_db).2.

(** Another entity of the content type of [Sample.patient1]. *)
Definition patient2 : Entity := mkEntity 5 (PkInt 2).

(** [Sample.eye_color] with a slug of its own. *)
Definition eye_colour_slugged : Attribute :=
  with_slug "eye_color" Sample.eye_color.

(** The store after [Sample.eye_color] has been saved into an empty one. *)
Definition db_after_eye_color : DB :=
  (save Sample.keep_name Sample.no_field_errors 20 Sample.eye_color
     Sample.empty_db).2.

(** The saved [Sample.eye_color]. *)
Definition eye_color_saved : Attribute :=
  with_modified 20 (with_pk 0 (with_slug "Eye Color" Sample.eye_color)).

(** An attribute whose datatype is none of the tags. *)
Definition odd : Attribute :=
  mkAttribute None "decimal" "Price" None false None None 1 0 0.

(** Validators that let nothing through. *)
Definition reject_all (validator : Validator) (value : PyVal) : Exn + unit :=
  inl (ValidationError []).

End Fixture.

(** ** Python equality *)

(** A value compares equal to itself exactly when no [PNaN] occurs in
    it. *)
Lemma py_eq_self (v : PyVal) : py_eq v v = nan_free v.
Proof.
  revert v. fix IH 1. intros [| b | z | q | s | items | e |]; simpl.
  - reflexivity.
  - apply Qeq_bool_iff. reflexivity.
  - apply Qeq_bool_iff. reflexivity.
  - apply Qeq_bool_iff. reflexivity.
  - by apply bool_decide_eq_true.
  - induction items as [| x items IHitems]; [reflexivity |].
    by rewrite IH, IHitems.
  - by apply bool_decide_eq_true.
  - reflexivity.
Qed.

Lemma py_ne_self (v : PyVal) : py_ne v v = negb (nan_free v).
Proof. unfold py_ne. by rewrite py_eq_self. Qed.

Lemma py_eq_None_r (v : PyVal) : py_eq v PNone = is_None v.
Proof. by destruct v as [| [] | | | | | |]. Qed.

Lemma py_eq_empty_str (v : PyVal) : py_eq v (PStr "") = true ↔ v = PStr "".
Proof.
  split; [| by intros ->].
  destruct v as [| [] | | | s | | |]; simpl; try discriminate.
  intros H. apply bool_decide_eq_true in H. by subst.
Qed.

Lemma is_empty_spec (value : PyVal) :
  is_empty value = true ↔ value = PNone ∨ value = PStr "".
Proof.
  unfold is_empty. rewrite orb_true_iff, py_eq_empty_str.
  by destruct value; simpl; intuition discriminate.
Qed.

Lemma not_empty_ne_None (value : PyVal) :
  is_empty value = false → py_ne value PNone = true.
Proof.
  unfold is_empty, py_ne. rewrite py_eq_None_r.
  by destruct (is_None value).
Qed.

(** ** The store *)

Lemma matches_new_value (a : nat) (f : EntityFilter) (now : nat) :
  f_attribute f = Some a →
  matches f (new_value a f now) = true.
Proof.
  intros Ha. unfold matches, new_value, column; simpl.
  rewrite !bool_decide_eq_true_2 by done. simpl.
  apply bool_decide_eq_true. by case_bool_decide.
Qed.

Lemma matches_set_value (f : EntityFilter) (v : PyVal) (o : Value.t) :
  matches f (Value.set_value v o) = matches f o.
Proof. by destruct o. Qed.

Lemma matches_touch (f : EntityFilter) (now : nat) (o : Value.t) :
  matches f (Value.touch now o) = matches f o.
Proof. by destruct o. Qed.

Lemma select_insert (f : EntityFilter) (tbl : gmap nat Value.t) k o :
  matches f o = true →
  select f (<[k := o]> tbl) = <[k := o]> (select f tbl).
Proof. intros H. unfold select. by rewrite map_filter_insert_True. Qed.

Lemma select_delete (f : EntityFilter) (tbl : gmap nat Value.t) k :
  select f (delete k tbl) = delete k (select f tbl).
Proof. unfold select. by rewrite map_filter_delete. Qed.

Lemma select_singleton_lookup (f : EntityFilter) (tbl : gmap nat Value.t) k o :
  select f tbl = {[k := o]} → tbl !! k = Some o ∧ matches f o = true.
Proof.
  intros H.
  assert (Hk : select f tbl !! k = Some o) by (rewrite H; apply lookup_singleton_eq).
  unfold select in Hk. apply map_lookup_filter_Some in Hk. naive_solver.
Qed.

(** What [get] answers on a table with at most one matching row. *)
Lemma get_at_most_one (f : EntityFilter) (db : DB) :
  (size (select f (value_table db)) ≤ 1)%nat →
  (select f (value_table db) = ∅ ∧ get f db = (inl DoesNotExist, db))
  ∨ (∃ k o, select f (value_table db) = {[k := o]}
            ∧ get f db = (inr (k, o), db)).
Proof.
  intros Hsize. unfold get.
  destruct (map_to_list (select f (value_table db))) as [| [k o] [| kv l]] eqn:Hl.
  - left. split; [| done]. by apply map_to_list_empty_iff.
  - right. exists k, o. split; [| done].
    rewrite <- (list_to_map_to_list (select f (value_table db))), Hl.
    simpl. by rewrite insert_empty.
  - exfalso. rewrite <- length_map_to_list, Hl in Hsize. simpl in Hsize. lia.
Qed.

Lemma fresh_key_free (tbl : gmap nat Value.t) :
  tbl !! fresh (dom tbl) = None.
Proof. apply not_elem_of_dom, is_fresh. Qed.

(** ** The five cases of save_value *)

Section save_value_cases.

Context (self : Attribute) (a : nat) (entity : Entity).
Hypothesis self_saved : attr_pk self = Some a.

Let f : EntityFilter :=
  mkEntityFilter (get_for_model entity) (Some a) (get_entity_pk_type entity)
    (pk entity).

Ltac run_lookup H :=
  unfold save_value; rewrite self_saved;
  unfold mbind, M_bind, except_DoesNotExist, value_set_get;
  rewrite self_saved; unfold get;
  unfold rows_for in H; rewrite H;
  rewrite ?map_to_list_empty, ?map_to_list_singleton.

Lemma save_value_absent_empty value now db :
  rows_for a entity db = ∅ → is_empty value = true →
  save_value self entity value now db = (inr tt, db).
Proof. intros Hrows Hv. run_lookup Hrows. by rewrite Hv. Qed.

Lemma save_value_absent_value value now db :
  rows_for a entity db = ∅ → is_empty value = false →
  let k := fresh (dom (value_table db)) in
  let created := <[k := new_value a f now]> (value_table db) in
  let saved :=
    <[k := Value.touch now (Value.set_value value (new_value a f now))]>
      created in
  save_value self entity value now db
  = (inr tt, mkDB saved (attribute_table db)
               (saved :: created :: history db)).
Proof.
  intros Hrows Hv. run_lookup Hrows. rewrite Hv.
  unfold objects_create, mbind, M_bind, write_value.
  rewrite Hrows, map_size_empty. simpl.
  rewrite Hv. simpl. by rewrite (not_empty_ne_None _ Hv).
Qed.

Lemma save_value_present_empty value now db k o :
  rows_for a entity db = {[k := o]} → is_empty value = true →
  let deleted := delete k (value_table db) in
  save_value self entity value now db
  = (inr tt, mkDB deleted (attribute_table db) (deleted :: history db)).
Proof.
  intros Hrows Hv. run_lookup Hrows. unfold write_value. by rewrite Hv.
Qed.

Lemma save_value_present_changed value now db k o :
  rows_for a entity db = {[k := o]} → is_empty value = false →
  py_ne value (Value.value o) = true →
  let saved :=
    <[k := Value.touch now (Value.set_value value o)]> (value_table db) in
  save_value self entity value now db
  = (inr tt, mkDB saved (attribute_table db) (saved :: history db)).
Proof.
  intros Hrows Hv Hne. run_lookup Hrows. unfold write_value.
  rewrite Hv. simpl. by rewrite Hne.
Qed.

Lemma save_value_present_same value now db k o :
  rows_for a entity db = {[k := o]} → is_empty value = false →
  py_ne value (Value.value o) = false →
  save_value self entity value now db = (inr tt, db).
Proof.
  intros Hrows Hv Hne. run_lookup Hrows. unfold write_value.
  rewrite Hv. simpl. by rewrite Hne.
Qed.

End save_value_cases.

(** A table with at most one row of an identity has none or exactly one. *)
Lemma rows_for_at_most_one a entity db :
  (size (rows_for a entity db) ≤ 1)%nat →
  rows_for a entity db = ∅ ∨ ∃ k o, rows_for a entity db = {[k := o]}.
Proof.
  intros H. destruct (get_at_most_one _ db H) as [[? _] | (k & o & ? & _)];
    [by left | right; eauto].
Qed.

(** [save_value] returns and takes one step of the protocol, on every
    store with at most one row of the identity. *)
Lemma save_value_steps self a entity value now db :
  attr_pk self = Some a →
  (size (rows_for a entity db) ≤ 1)%nat →
  ∃ db', save_value self entity value now db = (inr tt, db')
         ∧ save_value_step a entity value now db db'.
Proof.
  intros Hpk Hsize.
  destruct (rows_for_at_most_one _ _ _ Hsize) as [Hrows | (k & o & Hrows)];
    destruct (is_empty value) eqn:Hv.
  - exists db. split; [by apply (save_value_absent_empty _ a) |].
    by constructor.
  - eexists. split; [by apply (save_value_absent_value _ a) |].
    by eapply step_create.
  - eexists. split; [by eapply (save_value_present_empty _ a) |].
    by eapply step_delete.
  - destruct (py_ne value (Value.value o)) eqn:Hne.
    + eexists. split; [by eapply (save_value_present_changed _ a) |].
      by eapply step_update.
    + exists db. split; [by eapply (save_value_present_same _ a) |].
      by eapply step_keep.
Qed.

(** The rows of the identity after a step. *)
Lemma step_rows_empty a entity value now db db' :
  save_value_step a entity value now db db' →
  is_empty value = true → rows_for a entity db' = ∅.
Proof.
  intros Hstep Hv. destruct Hstep as [Hrows _ | | k o deleted Hrows _ -> | |];
    try congruence.
  unfold rows_for in *; simpl. by rewrite select_delete, Hrows, delete_singleton_eq.
Qed.

Lemma step_rows_value a entity value now db db' :
  save_value_step a entity value now db db' →
  is_empty value = false →
  ∃ k o, rows_for a entity db' = {[k := o]}
         ∧ (Value.value o = value ∨ py_ne value (Value.value o) = false)
         ∧ (py_ne value value = false →
            py_ne value (Value.value o) = false)
         ∧ (Value.value o ≠ value → db' = db).
Proof.
  intros Hstep Hv.
  destruct Hstep as [| k created saved Hrows _ _ -> -> | |
                       k o saved Hrows _ Hne -> | k o Hrows _ Hne];
    try congruence.
  - eexists k, _. unfold rows_for in *; simpl. split; [| split; [| split]].
    + rewrite !select_insert, Hrows, insert_insert_eq, insert_empty; [done | |].
      * by apply matches_new_value.
      * rewrite matches_touch, matches_set_value. by apply matches_new_value.
    + simpl. by left.
    + simpl. done.
    + simpl. done.
  - eexists k, _. unfold rows_for in *; simpl. split; [| split; [| split]].
    + rewrite select_insert, Hrows, insert_singleton_eq; [done |].
      rewrite matches_touch, matches_set_value.
      by apply (select_singleton_lookup _ _ _ _ Hrows).
    + simpl. by left.
    + simpl. done.
    + simpl. done.
  - exists k, o. split_and!; [done | by right | done | done].
Qed.

Lemma step_at_most_one a entity value now db db' :
  save_value_step a entity value now db db' →
  (size (rows_for a entity db') ≤ 1)%nat.
Proof.
  intros Hstep. destruct (is_empty value) eqn:Hv.
  - rewrite (step_rows_empty _ _ _ _ _ _ Hstep Hv), map_size_empty. lia.
  - destruct (step_rows_value _ _ _ _ _ _ Hstep Hv) as (k & o & -> & _).
    rewrite map_size_singleton. lia.
Qed.

Lemma save_values_at_most_one self a entity calls db :
  attr_pk self = Some a →
  (size (rows_for a entity db) ≤ 1)%nat →
  ∃ db', save_values self entity calls db = (inr tt, db')
         ∧ (size (rows_for a entity db') ≤ 1)%nat.
Proof.
  intros Hpk. revert db.
  induction calls as [| [value now] rest IH]; intros db Hsize.
  - by exists db.
  - destruct (save_value_steps self a entity value now db Hpk Hsize)
      as (db1 & Hrun & Hstep).
    destruct (IH db1 (step_at_most_one _ _ _ _ _ _ Hstep)) as (db' & Hrest & ?).
    exists db'. split; [| done].
    simpl. unfold mbind, M_bind. by rewrite Hrun.
Qed.

(** C1.  On a store that holds at most one row of the identity of an
    attribute and an entity, [save_value] returns and leaves at most one
    such row; when the value is not empty there is exactly one, its payload
    is the value or compares equal to it (it compares equal whenever the
    value compares equal to itself), and it is the value itself unless the
    call found an equal payload and wrote nothing.  Every finite sequence
    of calls for the same attribute and entity returns and keeps at most
    one row. *)
Theorem save_value_at_most_one self a entity value now calls db :
  attr_pk self = Some a →
  (size (rows_for a entity db) ≤ 1)%nat →
  (∃ db', save_value self entity value now db = (inr tt, db')
          ∧ (size (rows_for a entity db') ≤ 1)%nat
          ∧ (is_empty value = false →
             ∃ k o, rows_for a entity db' = {[k := o]}
                    ∧ (Value.value o = value
                       ∨ py_ne value (Value.value o) = false)
                    ∧ (py_ne value value = false →
                       py_ne value (Value.value o) = false)
                    ∧ (Value.value o ≠ value → db' = db)))
  ∧ (∃ db', save_values self entity calls db = (inr tt, db')
            ∧ (size (rows_for a entity db') ≤ 1)%nat).
Proof.
  intros Hpk Hsize. split; [| by apply save_values_at_most_one].
  destruct (save_value_steps self a entity value now db Hpk Hsize)
    as (db' & Hrun & Hstep).
  exists db'. split; [done |]. split; [by eapply step_at_most_one |].
  exact (step_rows_value _ _ _ _ _ _ Hstep).
Qed.

(** C2.  On a store that holds at most one row of the identity, a call
    with [None] or with the empty string returns and leaves no row of the
    identity: the row that was found is deleted, and when there was none the
    store is left as it was. *)
Theorem save_value_empty_deletes self a entity value now db :
  attr_pk self = Some a →
  (size (rows_for a entity db) ≤ 1)%nat →
  value = PNone ∨ value = PStr "" →
  ∃ db', save_value self entity value now db = (inr tt, db')
         ∧ rows_for a entity db' = ∅
         ∧ (rows_for a entity db = ∅ → db' = db)
         ∧ (∀ k o, rows_for a entity db = {[k := o]} →
                   value_table db' = delete k (value_table db)).
Proof.
  intros Hpk Hsize Hv. apply is_empty_spec in Hv.
  destruct (save_value_steps self a entity value now db Hpk Hsize)
    as (db' & Hrun & Hstep).
  exists db'. split; [done |]. split; [by eapply step_rows_empty |].
  destruct Hstep as [Hrows _ | | k o deleted Hrows _ -> | |]; try congruence.
  - split; [done |]. intros k o Hko. rewrite Hrows in Hko.
    by apply (f_equal size) in Hko; rewrite map_size_empty, map_size_singleton in Hko.
  - split.
    + intros He. rewrite Hrows in He.
      by apply (f_equal size) in He; rewrite map_size_empty, map_size_singleton in He.
    + intros k' o' Hko. rewrite Hrows in Hko. simpl.
      assert (Hk : ({[k := o]} : gmap nat Value.t) !! k' = Some o')
        by (rewrite Hko; apply lookup_singleton_eq).
      apply lookup_singleton_Some in Hk as [-> _]. done.
Qed.

(** C3, as stated, fails: a float that is not a number compares unequal to
    the payload it was stored as, so the second of two calls with it saves
    the row again and stamps it with the time of the second call. *)
Lemma save_value_twice_NaN_writes_twice :
  is_empty PNaN = false
  ∧ save_value Sample.height Sample.patient1 PNaN 10 Sample.empty_db
    = (inr tt, Fixture.db_with_NaN)
  ∧ save_value Sample.height Sample.patient1 PNaN 11 Fixture.db_with_NaN
    ≠ (inr tt, Fixture.db_with_NaN)
  ∧ Value.value <$> value_table Fixture.db_with_NaN !! 0 = Some PNaN
  ∧ Value.modified <$> value_table Fixture.db_with_NaN !! 0 = Some 10
  ∧ Value.modified
      <$> value_table
            (save_value Sample.height Sample.patient1 PNaN 11
               Fixture.db_with_NaN).2 !! 0
    = Some 11.
Proof. split_and!; by vm_compute. Qed.

(** C3, amended.  On a store that holds at most one row of the identity,
    two calls in a row with the same non-empty value that compares equal
    to itself (every value in which no float that is not a number occurs)
    both return; after the first there is exactly one row of the identity,
    its payload compares equal to the value (and is the value itself unless
    the first call already found an equal payload and wrote nothing), and
    the second call, at whatever time, leaves the whole store, timestamps
    and write history included, as the first call left it. *)
Theorem save_value_idempotent self a entity value now now' db :
  attr_pk self = Some a →
  (size (rows_for a entity db) ≤ 1)%nat →
  is_empty value = false →
  py_ne value value = false →
  ∃ db1, save_value self entity value now db = (inr tt, db1)
         ∧ save_value self entity value now' db1 = (inr tt, db1)
         ∧ ∃ k o, rows_for a entity db1 = {[k := o]}
                  ∧ py_ne value (Value.value o) = false
                  ∧ (Value.value o ≠ value → db1 = db).
Proof.
  intros Hpk Hsize Hv Hself.
  destruct (save_value_steps self a entity value now db Hpk Hsize)
    as (db1 & Hrun & Hstep).
  destruct (step_rows_value _ _ _ _ _ _ Hstep Hv)
    as (k & o & Hrows & _ & Hne & Hsame).
  specialize (Hne Hself).
  exists db1. split; [done |]. split; [| by exists k, o].
  by eapply (save_value_present_same _ a).
Qed.

(** Two rows under one key of a singleton table. *)
Lemma singleton_rows_inj (k k' : nat) (o o' : Value.t) :
  ({[k := o]} : gmap nat Value.t) = {[k' := o']} → k = k' ∧ o = o'.
Proof.
  intros H.
  assert (Hk : ({[k' := o']} : gmap nat Value.t) !! k = Some o)
    by (rewrite <- H; apply lookup_singleton_eq).
  by apply lookup_singleton_Some in Hk as [-> ->].
Qed.

(** What a step commits, and the payloads it leaves, case by case. *)
Lemma step_payloads a entity value now db db' :
  save_value_step a entity value now db db' →
  no_empty_payload (value_table db) →
  no_empty_payload (value_table db')
  ∧ (rows_for a entity db = ∅ → is_empty value = true → db' = db)
  ∧ (rows_for a entity db = ∅ → is_empty value = false →
     ∃ k o o',
       value_table db !! k = None
       ∧ matches (filter_for a entity) o = true
       ∧ Value.value o = PNone
       ∧ Value.value o' = value
       ∧ value_table db' = <[k := o']> (value_table db)
       ∧ rows_for a entity db' = {[k := o']}
       ∧ history db'
         = value_table db' :: <[k := o]> (value_table db) :: history db)
  ∧ (∀ k o, rows_for a entity db = {[k := o]} →
       (is_empty value = true →
        value_table db' = delete k (value_table db)
        ∧ history db' = value_table db' :: history db)
       ∧ (is_empty value = false → py_ne value (Value.value o) = true →
          ∃ o', Value.value o' = value
                ∧ value_table db' = <[k := o']> (value_table db)
                ∧ history db' = value_table db' :: history db)
       ∧ (is_empty value = false → py_ne value (Value.value o) = false →
          db' = db)).
Proof.
  intros Hstep Hdb.
  destruct Hstep as [Hrows Hv | k created saved Hrows Hv -> -> -> |
                     k o deleted Hrows Hv -> | k o saved Hrows Hv Hne -> |
                     k o Hrows Hv Hne]; simpl.
  - split_and!; [done | done | intros _ ?; congruence |].
    intros k o Hko. rewrite Hrows in Hko.
    by destruct (map_non_empty_singleton k o).
  - split_and!.
    + rewrite insert_insert_eq. by apply map_Forall_insert_2.
    + intros _ ?; congruence.
    + intros _ _.
      exists (fresh (dom (value_table db))),
        (new_value a (filter_for a entity) now),
        (Value.touch now
           (Value.set_value value (new_value a (filter_for a entity) now))).
      unfold filter_for.
      split; [apply fresh_key_free |].
      split; [by apply matches_new_value |].
      split; [done |]. split; [done |].
      split; [apply insert_insert_eq |].
      split; [| by rewrite insert_insert_eq].
      unfold rows_for in *; simpl.
      rewrite !select_insert, Hrows, insert_insert_eq, insert_empty;
        [done | |].
      * by apply matches_new_value.
      * rewrite matches_touch, matches_set_value.
        by apply matches_new_value.
    + intros k o Hko. rewrite Hrows in Hko.
      by destruct (map_non_empty_singleton k o).
  - split_and!.
    + by apply map_Forall_delete.
    + intros He. rewrite Hrows in He.
      by destruct (map_non_empty_singleton k o).
    + intros He. rewrite Hrows in He.
      by destruct (map_non_empty_singleton k o).
    + intros k' o' Hko. rewrite Hrows in Hko.
      apply singleton_rows_inj in Hko as [<- <-].
      split_and!; [done | intros; congruence | intros; congruence].
  - split_and!.
    + by apply map_Forall_insert_2.
    + intros He. rewrite Hrows in He.
      by destruct (map_non_empty_singleton k o).
    + intros He. rewrite Hrows in He.
      by destruct (map_non_empty_singleton k o).
    + intros k' o' Hko. rewrite Hrows in Hko.
      apply singleton_rows_inj in Hko as [<- <-].
      split_and!; [intros; congruence | | intros; congruence].
      intros _ _. by exists (Value.touch now (Value.set_value value o)).
  - split_and!; [done | done | |].
    + intros He. rewrite Hrows in He.
      by destruct (map_non_empty_singleton k o).
    + intros k' o' Hko. rewrite Hrows in Hko.
      apply singleton_rows_inj in Hko as [<- <-].
      split_and!; [intros; congruence | intros; congruence | done].
Qed.

Lemma committed_by_0 {A} (m : M A) db :
  history (m db).2 = history db → committed_by m db = [].
Proof. intros H. unfold committed_by. rewrite H, Nat.sub_diag. done. Qed.

Lemma committed_by_1 {A} (m : M A) db t1 :
  history (m db).2 = t1 :: history db → committed_by m db = [t1].
Proof.
  intros H. unfold committed_by. rewrite H. simpl length.
  replace (S (length (history db)) - length (history db)) with 1 by lia.
  done.
Qed.

Lemma committed_by_2 {A} (m : M A) db t1 t2 :
  history (m db).2 = t2 :: t1 :: history db → committed_by m db = [t2; t1].
Proof.
  intros H. unfold committed_by. rewrite H. simpl length.
  replace (S (S (length (history db))) - length (history db)) with 2 by lia.
  done.
Qed.

(** C6, as stated, fails: the first non-empty write for a new identity
    commits the row once without a payload. *)
Lemma save_value_commits_empty_payload :
  ¬ Forall no_empty_payload
      (committed_by
         (save_value Sample.height Sample.patient1 (PInt 178) 10)
         Sample.empty_db).
Proof.
  intros H. apply Forall_cons in H as [_ H]. apply Forall_cons in H as [H _].
  specialize
    (H 0 (new_value 1 (mkEntityFilter 5 (Some 1) "entity_id" (PkInt 1)) 10)).
  discriminate H. vm_compute. reflexivity.
Qed.

(** C6, amended.  On a store that holds at most one row of the identity and
    no row with an empty payload, [save_value] returns and leaves no row
    with an empty payload.  A call with an empty value on a store without
    a row of the identity commits nothing and leaves the store as it was,
    so a row comes into being only with a non-empty write.  That write
    commits twice: first the table with the new row of the identity, which
    has no payload yet, then the final table, in which that row carries
    the value.  A call that finds a row commits no table with an empty
    payload: it commits the table without the row for an empty value, the
    table with the value in the row for a value that compares unequal to
    the payload, and nothing otherwise. *)
Theorem save_value_payload_after self a entity value now db :
  attr_pk self = Some a →
  (size (rows_for a entity db) ≤ 1)%nat →
  no_empty_payload (value_table db) →
  ∃ db', save_value self entity value now db = (inr tt, db')
         ∧ no_empty_payload (value_table db')
         ∧ (rows_for a entity db = ∅ → is_empty value = true →
            db' = db
            ∧ committed_by (save_value self entity value now) db = [])
         ∧ (rows_for a entity db = ∅ → is_empty value = false →
            ∃ k o o',
              value_table db !! k = None
              ∧ matches (filter_for a entity) o = true
              ∧ Value.value o = PNone
              ∧ Value.value o' = value
              ∧ value_table db' = <[k := o']> (value_table db)
              ∧ rows_for a entity db' = {[k := o']}
              ∧ committed_by (save_value self entity value now) db
                = [value_table db'; <[k := o]> (value_table db)])
         ∧ (∀ k o, rows_for a entity db = {[k := o]} →
              Forall no_empty_payload
                (committed_by (save_value self entity value now) db)
              ∧ (is_empty value = true →
                 value_table db' = delete k (value_table db)
                 ∧ committed_by (save_value self entity value now) db
                   = [value_table db'])
              ∧ (is_empty value = false →
                 py_ne value (Value.value o) = true →
                 ∃ o', Value.value o' = value
                       ∧ value_table db' = <[k := o']> (value_table db)
                       ∧ committed_by (save_value self entity value now) db
                         = [value_table db'])
              ∧ (is_empty value = false →
                 py_ne value (Value.value o) = false →
                 db' = db
                 ∧ committed_by (save_value self entity value now) db
                   = [])).
Proof.
  intros Hpk Hsize Hdb.
  destruct (save_value_steps self a entity value now db Hpk Hsize)
    as (db' & Hrun & Hstep).
  destruct (step_payloads _ _ _ _ _ _ Hstep Hdb)
    as (Hafter & Hlazy & Hcreate & Hfound).
  assert (Hdb' : (save_value self entity value now db).2 = db')
    by (by rewrite Hrun).
  exists db'. split_and!; [done | done | | |].
  - intros Hrows Hv. specialize (Hlazy Hrows Hv). split; [done |].
    apply committed_by_0. by rewrite Hdb', Hlazy.
  - intros Hrows Hv.
    destruct (Hcreate Hrows Hv)
      as (k & o & o' & Hk & Hm & Ho & Ho' & Htbl & Hrows' & Hh).
    exists k, o, o'. split_and!; try done.
    apply committed_by_2. by rewrite Hdb'.
  - intros k o Hrows.
    destruct (Hfound k o Hrows) as (Hdel & Hupd & Hkeep).
    split_and!.
    + destruct (is_empty value) eqn:Hv.
      * destruct (Hdel eq_refl) as [_ Hh].
        rewrite (committed_by_1 _ _ (value_table db'))
          by (by rewrite Hdb').
        by repeat constructor.
      * destruct (py_ne value (Value.value o)) eqn:Hne.
        -- destruct (Hupd eq_refl eq_refl) as (o' & _ & _ & Hh).
           rewrite (committed_by_1 _ _ (value_table db'))
             by (by rewrite Hdb').
           by repeat constructor.
        -- rewrite (committed_by_0 _ _)
             by (by rewrite Hdb', (Hkeep eq_refl eq_refl)).
           constructor.
    + intros Hv. destruct (Hdel Hv) as [Htbl Hh]. split; [done |].
      apply committed_by_1. by rewrite Hdb'.
    + intros Hv Hne. destruct (Hupd Hv Hne) as (o' & Ho' & Htbl & Hh).
      exists o'. split_and!; [done | done |].
      apply committed_by_1. by rewrite Hdb'.
    + intros Hv Hne. specialize (Hkeep Hv Hne). split; [done |].
      apply committed_by_0. by rewrite Hdb', Hkeep.
Qed.

(** C10.  A value other than [None] and the empty string is not empty for
    [save_value], the falsy [0], [False], [0.0] and the empty list included.
    On a store with at most one row of the identity the call returns and
    leaves exactly one row of the identity, whose payload is the value or
    compares equal to it (it compares equal whenever the value compares
    equal to itself): without a row before, a row carrying the value is
    inserted under a new key; a row found before is still there, and
    carries the value when its payload compared unequal. *)
Theorem save_value_nonempty_path self a entity value now db :
  attr_pk self = Some a →
  (size (rows_for a entity db) ≤ 1)%nat →
  value ≠ PNone →
  value ≠ PStr "" →
  is_empty value = false
  ∧ Forall (λ v, is_empty v = false)
           [PInt 0; PBool false; PFloat 0; PList []]
  ∧ ∃ db', save_value self entity value now db = (inr tt, db')
           ∧ (∃ k o, rows_for a entity db' = {[k := o]}
                     ∧ (Value.value o = value
                        ∨ py_ne value (Value.value o) = false)
                     ∧ (py_ne value value = false →
                        py_ne value (Value.value o) = false))
           ∧ (rows_for a entity db = ∅ →
              ∃ k o, value_table db !! k = None
                     ∧ value_table db' = <[k := o]> (value_table db)
                     ∧ Value.value o = value)
           ∧ (∀ k o, rows_for a entity db = {[k := o]} →
                     ∃ o', value_table db' !! k = Some o'
                           ∧ (py_ne value (Value.value o) = true →
                              Value.value o' = value)).
Proof.
  intros Hpk Hsize HNone Hstr.
  assert (Hv : is_empty value = false).
  { destruct (is_empty value) eqn:E; [| done].
    apply is_empty_spec in E. by destruct E. }
  split; [done |]. split; [by repeat constructor |].
  destruct (save_value_steps self a entity value now db Hpk Hsize)
    as (db' & Hrun & Hstep).
  exists db'. split; [done |]. split.
  { destruct (step_rows_value _ _ _ _ _ _ Hstep Hv)
      as (k & o & ? & ? & ? & _).
    by exists k, o. }
  destruct Hstep as [| k created saved Hrows _ -> -> -> | |
                       k o saved Hrows _ Hne -> | k o Hrows _ Hne];
    try congruence; simpl.
  - split.
    + intros _. eexists _, _. split; [apply fresh_key_free |].
      split; [apply insert_insert_eq | done].
    + intros k o Hko. rewrite Hrows in Hko.
      by apply (f_equal size) in Hko; rewrite map_size_empty, map_size_singleton in Hko.
  - split.
    + intros He. rewrite Hrows in He.
      by apply (f_equal size) in He; rewrite map_size_empty, map_size_singleton in He.
    + intros k' o' Hko. rewrite Hrows in Hko.
      assert (Hk : ({[k := o]} : gmap nat Value.t) !! k' = Some o')
        by (rewrite Hko; apply lookup_singleton_eq).
      apply lookup_singleton_Some in Hk as [-> _].
      eexists. split; [apply lookup_insert_eq | done].
  - split.
    + intros He. rewrite Hrows in He.
      by apply (f_equal size) in He; rewrite map_size_empty, map_size_singleton in He.
    + intros k' o' Hko. rewrite Hrows in Hko.
      assert (Hk : ({[k := o]} : gmap nat Value.t) !! k' = Some o')
        by (rewrite Hko; apply lookup_singleton_eq).
      apply lookup_singleton_Some in Hk as [-> <-].
      exists o. split; [by apply (select_singleton_lookup _ _ _ _ Hrows) |].
      congruence.
Qed.

(** ** Validator dispatch *)

Lemma DATATYPE_VALIDATORS_total :
  Forall (λ dt, is_Some (DATATYPE_VALIDATORS !! dt)) DATATYPES.
Proof. repeat constructor; by eexists. Qed.

Lemma DATATYPE_VALIDATORS_injective :
  Forall (λ dt, Forall (λ dt', DATATYPE_VALIDATORS !! dt
                               = DATATYPE_VALIDATORS !! dt' → dt = dt')
                       DATATYPES) DATATYPES.
Proof. repeat constructor; by vm_compute. Qed.

(** C7.  For an attribute whose datatype is one of the nine tags,
    [get_validators] returns a list of exactly one validator, the entry of
    the dictionary under that tag, and no other tag of the set has the same
    validator; the tags of the set are the keys of the dictionary and the
    tags of the declared choices. *)
Theorem get_validators_total (self : Attribute) :
  datatype self ∈ DATATYPES →
  (∃ validator,
      get_validators self = inr [validator]
      ∧ DATATYPE_VALIDATORS !! datatype self = Some validator
      ∧ ∀ other, datatype other ∈ DATATYPES →
                 get_validators other = inr [validator] →
                 datatype other = datatype self)
  ∧ dom DATATYPE_VALIDATORS = list_to_set DATATYPES
  ∧ DATATYPE_CHOICES.*1 ≡ₚ DATATYPES.
Proof.
  intros Hdt. split; [| split].
  - pose proof DATATYPE_VALIDATORS_total as Htot.
    rewrite Forall_forall in Htot. destruct (Htot _ Hdt) as [validator Hv].
    exists validator. unfold get_validators. rewrite Hv.
    split; [done |]. split; [done |].
    intros other Hother. unfold get_validators.
    destruct (Htot _ Hother) as [validator' Hv']. rewrite Hv'.
    intros [= ->].
    pose proof DATATYPE_VALIDATORS_injective as Hinj.
    rewrite Forall_forall in Hinj. specialize (Hinj _ Hother).
    rewrite Forall_forall in Hinj. apply (Hinj _ Hdt). congruence.
  - by vm_compute.
  - unfold DATATYPE_CHOICES, DATATYPES; simpl.
    apply perm_skip.
    change ["float"; "int"; "date"; "bool"; "object"; "enum"; "json"; "csv"]
      with (["float"; "int"] ++ "date"
              :: ["bool"; "object"; "enum"; "json"; "csv"])%list.
    by rewrite <- Permutation_middle.
Qed.

(** ** Enum membership *)

Lemma values_filter_exists_label (g : EnumGroup) (label : string) :
  values_filter_exists g (PStr label) = true ↔ label ∈ labels g.
Proof.
  unfold values_filter_exists, labels. rewrite existsb_exists, list_elem_of_fmap.
  split.
  - intros (e & He & Heq). exists e. simpl in Heq.
    apply bool_decide_eq_true in Heq. split; [done |].
    by apply list_elem_of_In.
  - intros (e & -> & He). exists e. split; [by apply list_elem_of_In |].
    simpl. by apply bool_decide_eq_true.
Qed.

Lemma get_validators_enum (self : Attribute) :
  datatype self = TYPE_ENUM → get_validators self = inr [validate_enum].
Proof. intros H. unfold get_validators. by rewrite H. Qed.

(** C4.  For an enum attribute with its group, and a value that is a label
    or an [EnumValue] reference and that the validator of the datatype lets
    through, [validate_value] succeeds exactly when the label is the label
    of a member of the group; otherwise it raises the [ValidationError]
    whose message carries the label and the attribute. *)
Theorem validate_value_enum_membership
    (run_validator : Validator → PyVal → Exn + unit)
    (self : Attribute) (g : EnumGroup) (x : PyVal) (label : string) :
  datatype self = TYPE_ENUM →
  enum_group self = Some g →
  label_of x = Some label →
  run_validator validate_enum x = inr tt →
  (validate_value run_validator self x = inr tt ↔ label ∈ labels g)
  ∧ (label ∉ labels g →
     validate_value run_validator self x
     = inl (ValidationError [not_a_valid_choice (PStr label) self]))
  ∧ msg_val (not_a_valid_choice (PStr label) self) = Some (PStr label)
  ∧ msg_attr (not_a_valid_choice (PStr label) self) = Some (__str__ self).
Proof.
  intros Hdt Hg Hx Hrun.
  assert (Hcall : validate_value run_validator self x
                  = if values_filter_exists g (PStr label) then inr tt
                    else inl (ValidationError
                                [not_a_valid_choice (PStr label) self])).
  { unfold validate_value. rewrite (get_validators_enum _ Hdt).
    unfold mbind, Exn_bind; simpl. rewrite Hrun.
    rewrite bool_decide_eq_true_2 by done. rewrite Hg.
    destruct x; simplify_eq/=; done. }
  rewrite Hcall, <- values_filter_exists_label.
  destruct (values_filter_exists g (PStr label)); split_and!; try done.
Qed.

(** ** The invariant check *)

Lemma clean_with_slug (s : string) (self : Attribute) :
  clean (with_slug s self) = clean self.
Proof. done. Qed.

Section save_checks.

Context (generate_slug : string → string).
Context (clean_fields : DB → Attribute → list (string * Message)).
Context (now : nat).

Lemma full_clean_rejects self db m :
  clean self = inl (ValidationError [m]) →
  ∃ errors, full_clean clean_fields self db = (inl (ValidationError errors), db)
            ∧ m ∈ errors.
Proof.
  intros Hclean. unfold full_clean. rewrite Hclean. simpl.
  set (errs := (_ ++ _)%list).
  assert (Hin : m ∈ errs.*2).
  { unfold errs. rewrite !fmap_app. simpl. set_solver. }
  destruct errs as [| e errs'] eqn:E.
  - by apply elem_of_nil in Hin.
  - by eexists.
Qed.

Lemma save_rejects self db m :
  clean self = inl (ValidationError [m]) →
  ∃ errors, save generate_slug clean_fields now self db
            = (inl (ValidationError errors), db)
            ∧ m ∈ errors.
Proof.
  intros Hclean. unfold save.
  set (self1 := if slug_is_blank self then _ else _).
  assert (Hclean1 : clean self1 = inl (ValidationError [m])).
  { unfold self1. by destruct (slug_is_blank self). }
  destruct (full_clean_rejects self1 db m Hclean1) as (errors & Hfc & Hin).
  exists errors. split; [| done].
  unfold mbind, M_bind. by rewrite Hfc.
Qed.

(** C5.  [clean] raises one message for an enum attribute without a group
    and another one for an attribute of another datatype with a group, and
    passes every attribute that has a group exactly when it is an enum; a
    [save] of an attribute that [clean] refuses raises a [ValidationError]
    that carries the message of [clean] and leaves the store as it was. *)
Theorem clean_enforces_I1 (self : Attribute) (db : DB) :
  (datatype self = TYPE_ENUM → enum_group self = None →
   clean self = inl (ValidationError [must_set_choice_group]))
  ∧ (datatype self ≠ TYPE_ENUM → is_Some (enum_group self) →
     clean self = inl (ValidationError [only_assign_choice_group]))
  ∧ must_set_choice_group ≠ only_assign_choice_group
  ∧ ((datatype self = TYPE_ENUM ↔ is_Some (enum_group self)) →
     clean self = inr tt)
  ∧ (clean self ≠ inr tt →
     ∃ m errors, clean self = inl (ValidationError [m])
                 ∧ save generate_slug clean_fields now self db
                   = (inl (ValidationError errors), db)
                 ∧ m ∈ errors).
Proof.
  assert (Hcases :
    (datatype self = TYPE_ENUM → enum_group self = None →
     clean self = inl (ValidationError [must_set_choice_group]))
    ∧ (datatype self ≠ TYPE_ENUM → is_Some (enum_group self) →
       clean self = inl (ValidationError [only_assign_choice_group]))
    ∧ ((datatype self = TYPE_ENUM ↔ is_Some (enum_group self)) →
       clean self = inr tt)).
  { unfold clean.
    destruct (decide (datatype self = TYPE_ENUM)) as [Hdt | Hdt];
      destruct (enum_group self) as [g |].
    - rewrite bool_decide_eq_true_2 by done.
      rewrite (bool_decide_eq_true_2 (is_Some (Some g))) by by eexists.
      by split_and!.
    - rewrite bool_decide_eq_true_2 by done.
      rewrite (bool_decide_eq_false_2 (is_Some None)) by by intros [? ?].
      split_and!; [done | done |]. intros [H _]. by destruct (H Hdt).
    - rewrite bool_decide_eq_false_2 by done.
      rewrite (bool_decide_eq_true_2 (is_Some (Some g))) by by eexists.
      split_and!; [done | done |]. intros [_ H]. destruct Hdt. by apply H.
    - rewrite bool_decide_eq_false_2 by done.
      rewrite (bool_decide_eq_false_2 (is_Some None)) by by intros [? ?].
      split_and!; [done | by intros _ [? ?] | done]. }
  destruct Hcases as (Hmust & Honly & Hok).
  split_and!; try done.
  intros Hbad.
  destruct (decide (datatype self = TYPE_ENUM)) as [Hdt | Hdt];
    destruct (enum_group self) as [g |] eqn:Hg.
  - destruct Hbad. apply Hok. split; [by eexists | done].
  - exists must_set_choice_group.
    destruct (save_rejects self db _ (Hmust Hdt eq_refl)) as (errors & ? & ?).
    exists errors. split_and!; [by apply Hmust | done | done].
  - exists only_assign_choice_group.
    assert (Hsome : is_Some (Some g)) by by eexists.
    destruct (save_rejects self db _ (Honly Hdt Hsome)) as (errors & ? & ?).
    exists errors. split_and!; [by apply Honly | done | done].
  - destruct Hbad. apply Hok. split; [done |]. by intros [? ?].
Qed.

End save_checks.

(** ** The choices *)

(** C9.  For an attribute that has a group whenever it is an enum,
    [get_choices] returns: the members of the group, an empty list when the
    group has none, when the datatype is the enum; [None] for any other
    datatype.  The answer is [None] exactly when the attribute is not an
    enum. *)
Theorem get_choices_members_or_None (self : Attribute) :
  (datatype self = TYPE_ENUM → is_Some (enum_group self)) →
  ∃ choices,
    get_choices self = inr choices
    ∧ (datatype self = TYPE_ENUM →
       ∃ g, enum_group self = Some g ∧ choices = Some (values g))
    ∧ (datatype self ≠ TYPE_ENUM → choices = None)
    ∧ (choices = None ↔ datatype self ≠ TYPE_ENUM).
Proof.
  intros HI1. unfold get_choices. case_bool_decide as Hdt.
  - destruct (HI1 Hdt) as [g Hg]. rewrite Hg. exists (Some (values g)).
    split_and!; [done | by exists g | done | done].
  - exists None. split_and!; done.
Qed.

(** ** Saving an attribute *)

Section save_slug.

Context (generate_slug : string → string).
Context (clean_fields : DB → Attribute → list (string * Message)).
Context (now : nat).



(** What a successful [save] went through. *)
Lemma save_succeeds self db self' db' :
  save generate_slug clean_fields now self db = (inr self', db') →
  let self1 := if slug_is_blank self
               then with_slug (generate_slug (name self)) self else self in
  let k := default (fresh (dom (attribute_table db))) (attr_pk self1) in
  is_Some (slug self1) ∧ slug_taken db self1 = false
  ∧ self' = with_modified now (with_pk k self1)
  ∧ attribute_table db' = <[k := self']> (attribute_table db)
  ∧ value_table db' = value_table db
  ∧ history db' = history db.
Proof.
  unfold save. set (self1 := if slug_is_blank self then _ else _).
  unfold mbind, M_bind.
  destruct (full_clean clean_fields self1 db) as [[e | []] db1] eqn:Hfc;
    [done |].
  assert (db1 = db) as ->.
  { unfold full_clean in Hfc.
    by destruct (_ ++ _)%list in Hfc; injection Hfc. }
  unfold Model_save.
  destruct (bool_decide (is_Some (slug self1))) eqn:Hslug; [| done].
  destruct (slug_taken db self1) eqn:Htaken; [done |]. simpl.
  intros [= <- <-]. simpl. apply bool_decide_eq_true in Hslug.
  by split_and!.
Qed.




End save_slug.

(** ** The statements at sample inputs *)

Lemma save_value_at_most_one_witness :
  attr_pk Sample.height = Some 1
  ∧ (size (rows_for 1 Sample.patient1 Sample.empty_db) ≤ 1)%nat
  ∧ ∃ db', save_values Sample.height Sample.patient1
             [(PInt 178, 11); (PNone, 12); (PInt 180, 13)] Sample.empty_db
           = (inr tt, db')
           ∧ (size (rows_for 1 Sample.patient1 db') ≤ 1)%nat.
Proof.
  assert (H1 : attr_pk Sample.height = Some 1) by reflexivity.
  assert (H2 : (size (rows_for 1 Sample.patient1 Sample.empty_db) ≤ 1)%nat)
    by (vm_compute; lia).
  split; [exact H1 | split; [exact H2 |]].
  exact (proj2 (save_value_at_most_one Sample.height 1 Sample.patient1
                  (PInt 178) 10 [(PInt 178, 11); (PNone, 12); (PInt 180, 13)]
                  Sample.empty_db H1 H2)).
Defined.

Lemma save_value_empty_deletes_witness :
  attr_pk Sample.height = Some 1
  ∧ (size (rows_for 1 Sample.patient1 Sample.db_with_height) ≤ 1)%nat
  ∧ (PStr "" = PNone ∨ PStr "" = PStr "")
  ∧ ∃ db', save_value Sample.height Sample.patient1 (PStr "") 11
             Sample.db_with_height = (inr tt, db')
           ∧ rows_for 1 Sample.patient1 db' = ∅.
Proof.
  assert (H1 : attr_pk Sample.height = Some 1) by reflexivity.
  assert (H2 : (size (rows_for 1 Sample.patient1 Sample.db_with_height) ≤ 1)%nat)
    by (vm_compute; lia).
  assert (H3 : PStr "" = PNone ∨ PStr "" = PStr "") by (right; reflexivity).
  split; [exact H1 | split; [exact H2 | split; [exact H3 |]]].
  destruct (save_value_empty_deletes Sample.height 1 Sample.patient1
              (PStr "") 11 Sample.db_with_height H1 H2 H3)
    as (db' & Hrun & Hrows & _).
  exists db'. split; [exact Hrun | exact Hrows].
Defined.

Lemma save_value_idempotent_witness :
  attr_pk Sample.height = Some 1
  ∧ (size (rows_for 1 Sample.patient1 Sample.empty_db) ≤ 1)%nat
  ∧ is_empty (PInt 178) = false
  ∧ py_ne (PInt 178) (PInt 178) = false
  ∧ ∃ db1, save_value Sample.height Sample.patient1 (PInt 178) 10
             Sample.empty_db = (inr tt, db1)
           ∧ save_value Sample.height Sample.patient1 (PInt 178) 11 db1
             = (inr tt, db1).
Proof.
  assert (H1 : attr_pk Sample.height = Some 1) by reflexivity.
  assert (H2 : (size (rows_for 1 Sample.patient1 Sample.empty_db) ≤ 1)%nat)
    by (vm_compute; lia).
  assert (H3 : is_empty (PInt 178) = false) by reflexivity.
  assert (H4 : py_ne (PInt 178) (PInt 178) = false) by reflexivity.
  split; [exact H1 | split; [exact H2 | split; [exact H3 | split;
    [exact H4 |]]]].
  destruct (save_value_idempotent Sample.height 1 Sample.patient1
              (PInt 178) 10 11 Sample.empty_db H1 H2 H3 H4)
    as (db1 & Hfirst & Hsecond & _).
  exists db1. split; [exact Hfirst | exact Hsecond].
Defined.

Lemma save_value_payload_after_witness :
  attr_pk Sample.height = Some 1
  ∧ (size (rows_for 1 Sample.patient1 Sample.empty_db) ≤ 1)%nat
  ∧ no_empty_payload (value_table Sample.empty_db)
  ∧ ∃ db', save_value Sample.height Sample.patient1 (PInt 178) 10
             Sample.empty_db = (inr tt, db')
           ∧ no_empty_payload (value_table db').
Proof.
  assert (H1 : attr_pk Sample.height = Some 1) by reflexivity.
  assert (H2 : (size (rows_for 1 Sample.patient1 Sample.empty_db) ≤ 1)%nat)
    by (vm_compute; lia).
  assert (H3 : no_empty_payload (value_table Sample.empty_db))
    by (unfold no_empty_payload; simpl; apply map_Forall_empty).
  split; [exact H1 | split; [exact H2 | split; [exact H3 |]]].
  destruct (save_value_payload_after Sample.height 1 Sample.patient1
              (PInt 178) 10 Sample.empty_db H1 H2 H3)
    as (db' & Hrun & Hafter & _).
  exists db'. split; [exact Hrun | exact Hafter].
Defined.

Lemma save_value_nonempty_path_witness :
  attr_pk Sample.height = Some 1
  ∧ (size (rows_for 1 Sample.patient1 Sample.db_with_height) ≤ 1)%nat
  ∧ PInt 0 ≠ PNone
  ∧ PInt 0 ≠ PStr ""
  ∧ is_empty (PInt 0) = false.
Proof.
  assert (H1 : attr_pk Sample.height = Some 1) by reflexivity.
  assert (H2 : (size (rows_for 1 Sample.patient1 Sample.db_with_height) ≤ 1)%nat)
    by (vm_compute; lia).
  assert (H3 : PInt 0 ≠ PNone) by discriminate.
  assert (H4 : PInt 0 ≠ PStr "") by discriminate.
  split; [exact H1 | split; [exact H2 | split; [exact H3 | split; [exact H4 |]]]].
  exact (proj1 (save_value_nonempty_path Sample.height 1 Sample.patient1
                  (PInt 0) 11 Sample.db_with_height H1 H2 H3 H4)).
Defined.

Lemma get_validators_total_witness :
  datatype Sample.height ∈ DATATYPES
  ∧ ∃ validator, get_validators Sample.height = inr [validator].
Proof.
  assert (H1 : datatype Sample.height ∈ DATATYPES) by repeat constructor.
  split; [exact H1 |].
  destruct (proj1 (get_validators_total Sample.height H1))
    as (validator & Hget & _).
  exists validator. exact Hget.
Defined.

Lemma validate_value_enum_membership_witness :
  datatype Sample.fever = TYPE_ENUM
  ∧ enum_group Sample.fever = Some Sample.ynu
  ∧ label_of (PStr "maybe") = Some "maybe"
  ∧ Sample.accept_all validate_enum (PStr "maybe") = inr tt
  ∧ (validate_value Sample.accept_all Sample.fever (PStr "maybe") = inr tt
     ↔ "maybe" ∈ labels Sample.ynu).
Proof.
  assert (H1 : datatype Sample.fever = TYPE_ENUM) by reflexivity.
  assert (H2 : enum_group Sample.fever = Some Sample.ynu) by reflexivity.
  assert (H3 : label_of (PStr "maybe") = Some "maybe") by reflexivity.
  assert (H4 : Sample.accept_all validate_enum (PStr "maybe") = inr tt)
    by reflexivity.
  split; [exact H1 | split; [exact H2 | split; [exact H3 | split; [exact H4 |]]]].
  exact (proj1 (validate_value_enum_membership Sample.accept_all Sample.fever
                  Sample.ynu (PStr "maybe") "maybe" H1 H2 H3 H4)).
Defined.

Lemma get_choices_members_or_None_witness :
  (datatype Sample.fever = TYPE_ENUM → is_Some (enum_group Sample.fever))
  ∧ ∃ choices, get_choices Sample.fever = inr choices.
Proof.
  assert (H1 : datatype Sample.fever = TYPE_ENUM
               → is_Some (enum_group Sample.fever))
    by (intros _; exists Sample.ynu; reflexivity).
  split; [exact H1 |].
  destruct (get_choices_members_or_None Sample.fever H1)
    as (choices & Hget & _).
  exists choices. exact Hget.
Defined.


(** ** The scenarios of the specification, run *)

Example height_scenario :
  let run (calls : list (PyVal * nat)) :=
    (λ kv, Value.value kv.2)
      <$> map_to_list
            (value_table
               (save_values Sample.height Sample.patient1 calls
                  Sample.empty_db).2) in
  run [(PInt 178, 10)] = [PInt 178]
  ∧ run [(PInt 178, 10); (PInt 178, 11)] = [PInt 178]
  ∧ run [(PInt 178, 10); (PInt 178, 11); (PNone, 12)] = []
  ∧ run [(PInt 178, 10); (PInt 178, 11); (PNone, 12); (PInt 180, 13)]
    = [PInt 180].
Proof. by vm_compute. Qed.

Example fever_scenario :
  validate_value Sample.accept_all Sample.fever (PStr "maybe")
  = inl (ValidationError
           [mkMessage "%(val)s is not a valid choice for %(attr)s"
              (Some (PStr "maybe")) (Some "has fever? (Multiple Choice)")])
  ∧ validate_value Sample.accept_all Sample.fever (PStr "yes") = inr tt
  ∧ validate_value Sample.accept_all Sample.fever (PEnumValue Sample.no)
    = inr tt.
Proof. by vm_compute. Qed.

Example slug_scenario :
  save Sample.keep_name Sample.no_field_errors 20 Sample.eye_color
    Sample.db_with_eye_color
  = (inl (ValidationError [already_exists]), Sample.db_with_eye_color)
  ∧ (save Sample.keep_name Sample.no_field_errors 20 Sample.eye_color
       Sample.empty_db).1
    = inr (with_modified 20
             (with_pk 0 (with_slug "Eye Color" Sample.eye_color)))
  ∧ (save Sample.keep_name Sample.no_field_errors 20 Sample.enum_without_group
       Sample.empty_db)
    = (inl (ValidationError [must_set_choice_group]), Sample.empty_db)
  ∧ (save Sample.keep_name Sample.no_field_errors 20 Sample.text_with_group
       Sample.empty_db)
    = (inl (ValidationError [only_assign_choice_group]), Sample.empty_db).
Proof. by vm_compute. Qed.

(** ** More on validation *)

Lemma DATATYPE_VALIDATORS_dom :
  dom DATATYPE_VALIDATORS = list_to_set DATATYPES.
Proof. by vm_compute. Qed.

Lemma DATATYPE_VALIDATORS_lookup (dt : string) :
  is_Some (DATATYPE_VALIDATORS !! dt) ↔ dt ∈ DATATYPES.
Proof.
  rewrite <- elem_of_dom, DATATYPE_VALIDATORS_dom. apply elem_of_list_to_set.
Qed.

Section validation.

Context (run_validator : Validator → PyVal → Exn + unit).

(** X1.  [get_validators] returns exactly for the nine tags; for any other
    datatype it raises [KeyError] with the datatype as key, and so does
    [validate_value], whatever the validators and the value. *)
Theorem get_validators_KeyError (self : Attribute) (value : PyVal) :
  ((∃ validators, get_validators self = inr validators)
   ↔ datatype self ∈ DATATYPES)
  ∧ (datatype self ∉ DATATYPES →
     get_validators self = inl (KeyError (datatype self))
     ∧ validate_value run_validator self value
       = inl (KeyError (datatype self))).
Proof.
  rewrite <- DATATYPE_VALIDATORS_lookup.
  unfold validate_value, get_validators.
  destruct (DATATYPE_VALIDATORS !! datatype self) as [v |] eqn:Hv.
  - split.
    + split; [by eexists | by eexists].
    + intros H. destruct H. by eexists.
  - split.
    + split; [by intros [? ?] | by intros [? ?]].
    + done.
Qed.

(** X2.  The validator of the datatype decides first: when it raises,
    [validate_value] raises the same exception and the group is not
    consulted; for a datatype other than the enum the outcome of
    [validate_value] is the outcome of the validator, whether or not a
    group is set. *)
Theorem validate_value_validator_decides (self : Attribute)
    (validator : Validator) (value : PyVal) :
  DATATYPE_VALIDATORS !! datatype self = Some validator →
  (∀ e, run_validator validator value = inl e →
        validate_value run_validator self value = inl e)
  ∧ (datatype self ≠ TYPE_ENUM →
     validate_value run_validator self value
     = run_validator validator value).
Proof.
  intros Hv. unfold validate_value, get_validators. rewrite Hv.
  unfold mbind, Exn_bind; simpl. split.
  - intros e He. by rewrite He.
  - intros Hdt. rewrite bool_decide_eq_false_2 by done.
    by destruct (run_validator validator value) as [e | []].
Qed.

(** X3.  For an attribute that passes [clean] and has one of the nine
    datatypes, [validate_value] either succeeds, or raises what the
    validator of the datatype raised, or, for an enum only, raises the
    [ValidationError] that names the label and the attribute.  Of itself
    it raises neither [KeyError] nor [AttributeError]. *)
Theorem validate_value_outcomes (self : Attribute) (value : PyVal) :
  clean self = inr tt →
  datatype self ∈ DATATYPES →
  validate_value run_validator self value = inr tt
  ∨ (∃ validator e,
       DATATYPE_VALIDATORS !! datatype self = Some validator
       ∧ run_validator validator value = inl e
       ∧ validate_value run_validator self value = inl e)
  ∨ (datatype self = TYPE_ENUM
     ∧ ∃ label,
         validate_value run_validator self value
         = inl (ValidationError [not_a_valid_choice label self])).
Proof.
  intros Hclean Hdt. apply DATATYPE_VALIDATORS_lookup in Hdt as [v Hv].
  unfold validate_value, get_validators. rewrite Hv.
  unfold mbind, Exn_bind; simpl.
  destruct (run_validator v value) as [e | []] eqn:Hrun.
  { right; left. by exists v, e. }
  case_bool_decide as Henum; [| by left].
  destruct (enum_group self) as [g |] eqn:Hg.
  - destruct (values_filter_exists g _); [by left |].
    right; right. split; [done |]. by eexists.
  - unfold clean in Hclean. rewrite Hg in Hclean.
    rewrite bool_decide_eq_true_2 in Hclean by done.
    rewrite (bool_decide_eq_false_2 (is_Some None)) in Hclean
      by (by intros [? ?]).
    done.
Qed.

(** X4.  The membership test of an enum attribute goes by the label alone:
    when the validator treats an [EnumValue] reference and its label alike,
    [validate_value] has the same outcome on both, whatever the primary key
    of the reference. *)
Theorem validate_value_reference_as_label (self : Attribute) (e : EnumValue) :
  datatype self = TYPE_ENUM →
  run_validator validate_enum (PEnumValue e)
  = run_validator validate_enum (PStr (ev_value e)) →
  validate_value run_validator self (PEnumValue e)
  = validate_value run_validator self (PStr (ev_value e)).
Proof.
  intros Hdt Hsame. unfold validate_value.
  rewrite (get_validators_enum _ Hdt).
  unfold mbind, Exn_bind; simpl. by rewrite Hsame.
Qed.

(** X5.  What [get_choices] offers, [validate_value] accepts: every member
    of the list returned by [get_choices] passes [validate_value], as a
    reference and as its label, once the validator lets it through; and
    when the list is empty no label passes. *)
Theorem get_choices_are_valid (self : Attribute) (choices : list EnumValue)
    (x : PyVal) (label : string) :
  get_choices self = inr (Some choices) →
  label_of x = Some label →
  run_validator validate_enum x = inr tt →
  (label ∈ ev_value <$> choices →
   validate_value run_validator self x = inr tt)
  ∧ (choices = [] →
     validate_value run_validator self x
     = inl (ValidationError [not_a_valid_choice (PStr label) self])).
Proof.
  intros Hchoices Hx Hrun. unfold get_choices in Hchoices.
  case_bool_decide as Hdt; [| done].
  destruct (enum_group self) as [g |] eqn:Hg; [| done].
  injection Hchoices as <-.
  assert (Hcall : validate_value run_validator self x
                  = if values_filter_exists g (PStr label) then inr tt
                    else inl (ValidationError
                                [not_a_valid_choice (PStr label) self])).
  { unfold validate_value. rewrite (get_validators_enum _ Hdt).
    unfold mbind, Exn_bind; simpl. rewrite Hrun.
    rewrite bool_decide_eq_true_2 by done. rewrite Hg.
    destruct x; simplify_eq/=; done. }
  rewrite Hcall. split.
  - intros Hin. fold (labels g) in Hin.
    apply values_filter_exists_label in Hin. by rewrite Hin.
  - intros Hnil. unfold values_filter_exists. by rewrite Hnil.
Qed.

End validation.

(** ** More on save_value *)

(** X6.  [None] and the empty string are one and the same to
    [save_value]: on every store, and at whatever times, the two calls
    have the same outcome and leave the same store. *)
Theorem save_value_None_or_empty_string self entity now now' db :
  save_value self entity PNone now db
  = save_value self entity (PStr "") now' db.
Proof.
  unfold save_value, mbind, M_bind, except_DoesNotExist.
  destruct (value_set_get self _ db) as [[e | value_obj] db1];
    [by destruct e | done].
Qed.

Lemma get_many (f : EntityFilter) (db : DB) :
  (2 ≤ size (select f (value_table db)))%nat →
  get f db = (inl MultipleObjectsReturned, db).
Proof.
  intros Hsize. unfold get. rewrite <- length_map_to_list in Hsize.
  destruct (map_to_list (select f (value_table db))) as [| kv [| kv' l]];
    simpl in Hsize; [lia | lia | done].
Qed.

Lemma save_value_on_many self a entity value now db :
  attr_pk self = Some a →
  (2 ≤ size (rows_for a entity db))%nat →
  save_value self entity value now db = (inl MultipleObjectsReturned, db).
Proof.
  intros Hpk Hsize. unfold save_value, mbind, M_bind, except_DoesNotExist,
    value_set_get.
  rewrite Hpk. unfold rows_for in Hsize. by rewrite (get_many _ _ Hsize).
Qed.

(** X7.  With a saved attribute, [save_value] returns exactly on the stores
    with at most one row of the identity.  On a store with two or more it
    raises [MultipleObjectsReturned] and leaves the store as it was, for
    every value, the empty ones included: nothing is deleted. *)
Theorem save_value_many_rows self a entity value now db :
  attr_pk self = Some a →
  ((∃ db', save_value self entity value now db = (inr tt, db'))
   ↔ (size (rows_for a entity db) ≤ 1)%nat)
  ∧ ((2 ≤ size (rows_for a entity db))%nat →
     save_value self entity value now db
     = (inl MultipleObjectsReturned, db)).
Proof.
  intros Hpk. split; [| by apply save_value_on_many]. split.
  - intros [db' Hrun].
    destruct (decide (size (rows_for a entity db) ≤ 1)%nat) as [? | Hsize];
      [done |].
    rewrite (save_value_on_many self a entity value now db Hpk) in Hrun
      by lia.
    done.
  - intros Hsize.
    destruct (save_value_steps self a entity value now db Hpk Hsize)
      as (db' & Hrun & _).
    by exists db'.
Qed.

(** Two filters on the same field that differ in an entry have no row in
    common. *)
Lemma matches_other_identity (f f' : EntityFilter) (o : Value.t) :
  f_pk_field f' = f_pk_field f →
  f' ≠ f →
  matches f o = true → matches f' o = false.
Proof.
  intros Hfield Hne Hf.
  destruct (matches f' o) eqn:Hf'; [| done]. destruct Hne.
  unfold matches in Hf, Hf'. rewrite Hfield in Hf'.
  apply andb_true_iff in Hf as [Hf Hf3], Hf' as [Hf' Hf3'].
  apply andb_true_iff in Hf as [Hf1 Hf2], Hf' as [Hf1' Hf2'].
  apply bool_decide_eq_true in Hf1, Hf2, Hf3, Hf1', Hf2', Hf3'.
  destruct f, f'; simpl in *. congruence.
Qed.

(** A step leaves every row alone that is not of the identity. *)
Lemma step_frame a entity value now db db' :
  save_value_step a entity value now db db' →
  attribute_table db' = attribute_table db
  ∧ ∀ k o, matches (filter_for a entity) o = false →
           value_table db' !! k = Some o ↔ value_table db !! k = Some o.
Proof.
  intros Hstep.
  destruct Hstep as [Hrows Hv | k0 created saved Hrows Hv -> -> -> |
                     k0 o0 deleted Hrows Hv -> | k0 o0 saved Hrows Hv Hne -> |
                     k0 o0 Hrows Hv Hne]; simpl; (split; [done |]);
    intros k o Ho; try done.
  - rewrite insert_insert_eq.
    destruct (decide (k = fresh (dom (value_table db)))) as [-> | Hk].
    + rewrite lookup_insert_eq, fresh_key_free. split; [| done].
      intros [= <-]. rewrite matches_touch, matches_set_value in Ho.
      by rewrite matches_new_value in Ho.
    + by rewrite lookup_insert_ne.
  - destruct (select_singleton_lookup _ _ _ _ Hrows) as [Hk0 Hm].
    destruct (decide (k = k0)) as [-> | Hk].
    + rewrite lookup_delete_eq, Hk0. split; [done |].
      intros [= <-]. unfold filter_for in Ho. congruence.
    + by rewrite lookup_delete_ne.
  - destruct (select_singleton_lookup _ _ _ _ Hrows) as [Hk0 Hm].
    destruct (decide (k = k0)) as [-> | Hk].
    + rewrite lookup_insert_eq, Hk0. split.
      * intros [= <-]. rewrite matches_touch, matches_set_value in Ho.
        unfold filter_for in Ho. congruence.
      * intros [= <-]. unfold filter_for in Ho. congruence.
    + by rewrite lookup_insert_ne.
Qed.

(** X9.  [save_value] touches nothing but the rows of its identity: the
    [Attribute] table is as before, a row that does not satisfy the filter
    of the call is in the table after the call exactly when it was before,
    and the rows of any other attribute or entity with the same kind of
    primary key are the same. *)
Theorem save_value_frame self a entity value now db a' entity' :
  attr_pk self = Some a →
  (size (rows_for a entity db) ≤ 1)%nat →
  ∃ db', save_value self entity value now db = (inr tt, db')
         ∧ attribute_table db' = attribute_table db
         ∧ (∀ k o, matches (filter_for a entity) o = false →
                   value_table db' !! k = Some o
                   ↔ value_table db !! k = Some o)
         ∧ (get_entity_pk_type entity' = get_entity_pk_type entity →
            (a', entity') ≠ (a, entity) →
            rows_for a' entity' db' = rows_for a' entity' db).
Proof.
  intros Hpk Hsize.
  destruct (save_value_steps self a entity value now db Hpk Hsize)
    as (db' & Hrun & Hstep).
  destruct (step_frame _ _ _ _ _ _ Hstep) as [Hattrs Hrows].
  exists db'. split_and!; [done | done | done |].
  intros Hfield Hne. unfold rows_for, select.
  apply map_eq. intros k. apply option_eq. intros o.
  rewrite !map_lookup_filter_Some. simpl.
  assert (Hf : filter_for a' entity' ≠ filter_for a entity).
  { intros [= Hct <- Hpkf Hpkv]. destruct Hne.
    destruct entity, entity'; simpl in *. unfold get_for_model in Hct.
    simpl in Hct. congruence. }
  split; intros [Hk Hm]; (split; [| done]); apply Hrows; try done.
  - destruct (matches (filter_for a entity) o) eqn:E; [| done].
    pose proof (matches_other_identity (filter_for a entity)
                  (filter_for a' entity') o Hfield Hf E) as Hno.
    unfold filter_for in Hno. congruence.
  - destruct (matches (filter_for a entity) o) eqn:E; [| done].
    pose proof (matches_other_identity (filter_for a entity)
                  (filter_for a' entity') o Hfield Hf E) as Hno.
    unfold filter_for in Hno. congruence.
Qed.

(** X10.  Writing a value for an identity without a row and then erasing
    it brings the [Value] table back to what it was. *)
Theorem save_value_write_then_erase self a entity value now now' db :
  attr_pk self = Some a →
  rows_for a entity db = ∅ →
  is_empty value = false →
  ∃ db1 db2,
    save_value self entity value now db = (inr tt, db1)
    ∧ save_value self entity PNone now' db1 = (inr tt, db2)
    ∧ value_table db2 = value_table db.
Proof.
  intros Hpk Hrows Hv.
  pose proof (save_value_absent_value self a entity Hpk value now db Hrows Hv)
    as Hfirst. simpl in Hfirst.
  eexists _, _. split; [exact Hfirst |].
  set (k := fresh (dom (value_table db))) in *.
  set (f := mkEntityFilter _ _ _ _) in *.
  set (o := Value.touch now (Value.set_value value (new_value a f now))).
  assert (Hrows1 :
    rows_for a entity
      (mkDB (<[k := o]> (<[k := new_value a f now]> (value_table db)))
         (attribute_table db)
         (<[k := o]> (<[k := new_value a f now]> (value_table db))
          :: <[k := new_value a f now]> (value_table db) :: history db))
    = {[k := o]}).
  { unfold rows_for in *; simpl. fold f in Hrows |- *.
    rewrite !select_insert, Hrows, insert_insert_eq, insert_empty; [done | |].
    - by apply matches_new_value.
    - unfold o. rewrite matches_touch, matches_set_value.
      by apply matches_new_value. }
  split.
  - by apply (save_value_present_empty self a entity Hpk PNone now' _ k o).
  - simpl. rewrite insert_insert_eq, delete_insert_eq.
    apply delete_id, fresh_key_free.
Qed.

Lemma save_values_app self entity calls calls' db :
  save_values self entity (calls ++ calls')%list db
  = match save_values self entity calls db with
    | (inl e, db') => (inl e, db')
    | (inr _, db') => save_values self entity calls' db'
    end.
Proof.
  revert db. induction calls as [| [value now] rest IH]; intros db; [done |].
  simpl. unfold mbind, M_bind.
  destruct (save_value self entity value now db) as [[e | []] db1]; [done |].
  apply IH.
Qed.

(** X11.  The last write wins: after any finite sequence of calls for one
    attribute and entity, what is stored is decided by the value of the
    last call alone: no row when it was empty, otherwise one row whose
    payload is that value or compares equal to it (it compares equal
    whenever the value compares equal to itself). *)
Theorem save_values_last_write_wins self a entity calls value now db :
  attr_pk self = Some a →
  (size (rows_for a entity db) ≤ 1)%nat →
  ∃ db', save_values self entity (calls ++ [(value, now)])%list db
         = (inr tt, db')
         ∧ (is_empty value = true → rows_for a entity db' = ∅)
         ∧ (is_empty value = false →
            ∃ k o, rows_for a entity db' = {[k := o]}
                   ∧ (Value.value o = value
                      ∨ py_ne value (Value.value o) = false)
                   ∧ (py_ne value value = false →
                      py_ne value (Value.value o) = false)).
Proof.
  intros Hpk Hsize.
  destruct (save_values_at_most_one self a entity calls db Hpk Hsize)
    as (db1 & Hcalls & Hsize1).
  destruct (save_value_steps self a entity value now db1 Hpk Hsize1)
    as (db' & Hrun & Hstep).
  exists db'. split_and!.
  - rewrite save_values_app, Hcalls. simpl. unfold mbind, M_bind.
    by rewrite Hrun.
  - by eapply step_rows_empty.
  - intros Hv.
    destruct (step_rows_value _ _ _ _ _ _ Hstep Hv)
      as (k & o & ? & ? & ? & _).
    by exists k, o.
Qed.

(** ** More on saving an attribute *)

Section more_save.

Context (generate_slug : string → string).
Context (clean_fields : DB → Attribute → list (string * Message)).
Context (now : nat).

Lemma full_clean_store self db :
  (full_clean clean_fields self db).2 = db.
Proof. unfold full_clean. by destruct (_ ++ _)%list. Qed.

Lemma full_clean_passed self db :
  full_clean clean_fields self db = (inr tt, db) →
  clean_fields db self = [] ∧ clean self = inr tt.
Proof.
  unfold full_clean.
  destruct (clean_fields db self) as [| e errs]; [| done]. simpl.
  unfold clean.
  destruct (_ && _); [done |]. destruct (_ && _); done.
Qed.

(** X12.  [save] never touches the [Value] table, and a [save] that raises,
    whatever it raises, leaves the whole store as it was. *)
Theorem save_leaves_values (self : Attribute) (db : DB) :
  value_table (save generate_slug clean_fields now self db).2 = value_table db
  ∧ history (save generate_slug clean_fields now self db).2 = history db
  ∧ (∀ e db', save generate_slug clean_fields now self db = (inl e, db') →
              db' = db).
Proof.
  unfold save. set (self1 := if slug_is_blank self then _ else _).
  unfold mbind, M_bind.
  pose proof (full_clean_store self1 db) as Hfc.
  destruct (full_clean clean_fields self1 db) as [[e | []] db1];
    simpl in Hfc; subst db1.
  - split_and!; [done | done |]. by intros ? ? [= _ <-].
  - unfold Model_save. destruct (_ || _); simpl.
    + split_and!; [done | done |]. by intros ? ? [= _ <-].
    + split_and!; done.
Qed.

(** X13.  A slug that is given is kept: for an attribute whose slug is not
    blank, [save] does not depend on the slug function, and when it
    succeeds the saved row carries the slug of the attribute as it was
    passed in. *)
Theorem save_keeps_given_slug (other_slug : string → string)
    (self : Attribute) (db : DB) :
  slug_is_blank self = false →
  save generate_slug clean_fields now self db
  = save other_slug clean_fields now self db
  ∧ (∀ self' db',
       save generate_slug clean_fields now self db = (inr self', db') →
       slug self' = slug self
       ∧ ∃ k, attribute_table db' !! k = Some self').
Proof.
  intros Hblank. split.
  - unfold save. by rewrite Hblank.
  - intros self' db' Hsave.
    destruct (save_succeeds _ _ _ _ _ _ _ Hsave) as (_ & _ & -> & Htbl & _).
    rewrite Hblank in *. split; [done |].
    eexists. rewrite Htbl. apply lookup_insert_eq.
Qed.

(** X14.  [save] keeps the slugs of the [Attribute] table distinct: when no
    two rows carry the same slug before a [save] that succeeds, none do
    after it; and every row under another primary key than the one of the
    attribute is still there unchanged. *)
Theorem save_keeps_slugs_unique (self self' : Attribute) (db db' : DB) :
  unique_slugs (attribute_table db) →
  save generate_slug clean_fields now self db = (inr self', db') →
  unique_slugs (attribute_table db')
  ∧ (∀ k a, attribute_table db !! k = Some a → attr_pk self ≠ Some k →
            attribute_table db' !! k = Some a).
Proof.
  intros Huniq Hsave.
  destruct (save_succeeds _ _ _ _ _ _ _ Hsave) as (_ & Hfree & Hself' & Htbl & _).
  set (self1 := if slug_is_blank self then _ else _) in *.
  set (k0 := default (fresh (dom (attribute_table db))) (attr_pk self1)) in *.
  assert (Hpk1 : attr_pk self1 = attr_pk self)
    by (unfold self1; by destruct (slug_is_blank self)).
  apply bool_decide_eq_false in Hfree.
  assert (Hother : ∀ k a, attribute_table db !! k = Some a →
                          slug a = slug self' → k = k0).
  { intros k a Hk Hslug. destruct (decide (k = k0)) as [| Hne]; [done |].
    destruct Hfree. exists k, a. split; [done |].
    split; [by rewrite Hslug, Hself' |].
    intros Heq. apply Hne. unfold k0. by rewrite Heq. }
  split.
  - intros k1 k2 a1 a2. rewrite Htbl.
    destruct (decide (k1 = k0)) as [-> | H1], (decide (k2 = k0)) as [-> | H2];
      rewrite ?lookup_insert_eq, ?lookup_insert_ne by done.
    + done.
    + intros [= <-] H2' Hslug. symmetry. by eapply Hother.
    + intros H1' [= <-] Hslug. by eapply Hother.
    + apply Huniq.
  - intros k a Hk Hne. rewrite Htbl, lookup_insert_ne; [done |].
    unfold k0. rewrite Hpk1. destruct (attr_pk self) as [k' |]; simpl.
    + congruence.
    + intros <-. by rewrite not_elem_of_dom_1 in Hk by apply is_fresh.
Qed.

(** X15.  Saving a saved attribute again rewrites its own row and changes
    nothing in it but the stamp: when [save] succeeded and the fields of
    the result are still found valid, a [save] of the result at any time
    succeeds, returns the result with that time as [modified] and writes
    it under the same primary key; the other rows of the table, the
    [Value] table and the history are as the first [save] left them.  Only
    a [save] at the very time of the first leaves the store the same. *)
Theorem save_again_restamps_only (now' : nat) (self self' : Attribute)
    (db db' : DB) :
  save generate_slug clean_fields now self db = (inr self', db') →
  clean_fields db' self' = [] →
  ∃ k0,
    attr_pk self' = Some k0
    ∧ attribute_table db' !! k0 = Some self'
    ∧ modified self' = now
    ∧ save generate_slug clean_fields now' self' db'
      = (inr (with_modified now' self'),
         mkDB (value_table db')
           (<[k0 := with_modified now' self']> (attribute_table db'))
           (history db'))
    ∧ (save generate_slug clean_fields now' self' db' = (inr self', db')
       ↔ now' = now).
Proof.
  intros Hsave Hfields.
  destruct (save_succeeds _ _ _ _ _ _ _ Hsave)
    as (Hslug & Hfree & Hself' & Htbl & Hvals & Hhist).
  set (self1 := if slug_is_blank self then _ else _) in *.
  set (k0 := default (fresh (dom (attribute_table db))) (attr_pk self1)) in *.
  assert (Hclean : clean self1 = inr tt).
  { unfold save in Hsave. fold self1 in Hsave.
    unfold mbind, M_bind in Hsave.
    pose proof (full_clean_store self1 db) as Hst.
    destruct (full_clean clean_fields self1 db) as [[e | []] db1] eqn:Hfc;
      [done |].
    simpl in Hst; subst db1.
    by destruct (full_clean_passed _ _ Hfc) as [_ ?]. }
  assert (Hsame : (if slug_is_blank self'
                   then with_slug (generate_slug (name self')) self'
                   else self') = self').
  { destruct (slug_is_blank self') eqn:Hb; [| done].
    assert (Hb1 : slug_is_blank self1 = true) by (by rewrite Hself' in Hb).
    assert (Hs : slug self' = Some (generate_slug (name self'))).
    { rewrite Hself'. simpl. unfold self1 in Hb1 |- *.
      destruct (slug_is_blank self) eqn:Hb0; [done | congruence]. }
    destruct self'; simpl in *. unfold with_slug; simpl. by rewrite Hs. }
  assert (Hfree' : slug_taken db' self' = false).
  { apply bool_decide_eq_false. intros (k & a & Hk & Hs & Hne).
    apply bool_decide_eq_false in Hfree. apply Hfree.
    rewrite Hself' in Hne; simpl in Hne.
    assert (k ≠ k0) by congruence.
    rewrite Htbl, lookup_insert_ne in Hk by done.
    exists k, a. split; [done |]. split; [by rewrite Hs, Hself' |].
    intros Heq. unfold k0 in *. rewrite Heq in *. simpl in *. done. }
  assert (Hpk' : attr_pk self' = Some k0) by (by rewrite Hself').
  assert (Hrow : attribute_table db' !! k0 = Some self')
    by (rewrite Htbl; apply lookup_insert_eq).
  assert (Hagain :
    save generate_slug clean_fields now' self' db'
    = (inr (with_modified now' self'),
       mkDB (value_table db')
         (<[k0 := with_modified now' self']> (attribute_table db'))
         (history db'))).
  { unfold save. rewrite Hsame. unfold mbind, M_bind, full_clean.
    rewrite Hfields.
    assert (Hclean' : clean self' = inr tt) by (by rewrite Hself').
    rewrite Hclean'. simpl. unfold validate_unique. rewrite Hfree'.
    rewrite andb_false_r. simpl.
    unfold Model_save. rewrite Hfree'.
    rewrite bool_decide_eq_true_2 by (by rewrite Hself').
    simpl. rewrite Hpk'. simpl.
    assert (Hwp : with_pk k0 self' = self') by (rewrite Hself'; done).
    by rewrite Hwp. }
  exists k0. split_and!; [done | done | by rewrite Hself' | done |].
  rewrite Hagain. split.
  - intros [= Hm _]. apply (f_equal modified) in Hm. simpl in Hm.
    rewrite Hm, Hself'. done.
  - intros ->.
    assert (Hst : with_modified now self' = self')
      by (rewrite Hself'; done).
    rewrite Hst, insert_id by done. by destruct db'.
Qed.

(** X16.  The natural key finds the saved attribute: after a [save] that
    succeeds, the row under the primary key of the result is the result,
    and no row of the table under another primary key has the natural key
    of the result. *)
Theorem natural_key_of_saved (self self' : Attribute) (db db' : DB) :
  save generate_slug clean_fields now self db = (inr self', db') →
  ∃ k0, attr_pk self' = Some k0
        ∧ attribute_table db' !! k0 = Some self'
        ∧ ∀ k a, attribute_table db' !! k = Some a →
                 natural_key a = natural_key self' → k = k0 ∧ a = self'.
Proof.
  intros Hsave.
  destruct (save_succeeds _ _ _ _ _ _ _ Hsave) as (_ & Hfree & Hself' & Htbl & _).
  set (self1 := if slug_is_blank self then _ else _) in *.
  set (k0 := default (fresh (dom (attribute_table db))) (attr_pk self1)) in *.
  exists k0. split; [by rewrite Hself' |].
  split; [rewrite Htbl; apply lookup_insert_eq |].
  intros k a Hk [= _ Hslug].
  destruct (decide (k = k0)) as [-> | Hne].
  - rewrite Htbl, lookup_insert_eq in Hk. by injection Hk as <-.
  - rewrite Htbl, lookup_insert_ne in Hk by done.
    apply bool_decide_eq_false in Hfree. destruct Hfree.
    exists k, a. split; [done |]. split; [by rewrite Hslug, Hself' |].
    intros Heq. apply Hne. unfold k0. by rewrite Heq.
Qed.

End more_save.

(** ** The further statements at sample inputs *)

Lemma validate_value_validator_decides_witness :
  DATATYPE_VALIDATORS !! datatype Sample.text_with_group = Some validate_text
  ∧ validate_value Sample.accept_all Sample.text_with_group (PStr "maybe")
    = Sample.accept_all validate_text (PStr "maybe").
Proof.
  assert (H1 : DATATYPE_VALIDATORS !! datatype Sample.text_with_group
               = Some validate_text) by reflexivity.
  split; [exact H1 |].
  apply (proj2 (validate_value_validator_decides Sample.accept_all
                  Sample.text_with_group validate_text (PStr "maybe") H1)).
  discriminate.
Defined.

Lemma validate_value_outcomes_witness :
  clean Sample.fever = inr tt
  ∧ datatype Sample.fever ∈ DATATYPES
  ∧ (validate_value Fixture.reject_all Sample.fever (PStr "yes") = inr tt
     ∨ (∃ validator e,
          DATATYPE_VALIDATORS !! datatype Sample.fever = Some validator
          ∧ Fixture.reject_all validator (PStr "yes") = inl e
          ∧ validate_value Fixture.reject_all Sample.fever (PStr "yes")
            = inl e)
     ∨ (datatype Sample.fever = TYPE_ENUM
        ∧ ∃ label,
            validate_value Fixture.reject_all Sample.fever (PStr "yes")
            = inl (ValidationError
                     [not_a_valid_choice label Sample.fever]))).
Proof.
  assert (H1 : clean Sample.fever = inr tt) by reflexivity.
  assert (H2 : datatype Sample.fever ∈ DATATYPES) by repeat constructor.
  split; [exact H1 | split; [exact H2 |]].
  exact (validate_value_outcomes Fixture.reject_all Sample.fever (PStr "yes")
           H1 H2).
Defined.

Lemma validate_value_reference_as_label_witness :
  datatype Sample.fever = TYPE_ENUM
  ∧ Sample.accept_all validate_enum (PEnumValue (mkEnumValue 9 "yes"))
    = Sample.accept_all validate_enum (PStr "yes")
  ∧ validate_value Sample.accept_all Sample.fever
      (PEnumValue (mkEnumValue 9 "yes"))
    = validate_value Sample.accept_all Sample.fever (PStr "yes").
Proof.
  assert (H1 : datatype Sample.fever = TYPE_ENUM) by reflexivity.
  assert (H2 : Sample.accept_all validate_enum
                 (PEnumValue (mkEnumValue 9 "yes"))
               = Sample.accept_all validate_enum (PStr "yes"))
    by reflexivity.
  split; [exact H1 | split; [exact H2 |]].
  exact (validate_value_reference_as_label Sample.accept_all Sample.fever
           (mkEnumValue 9 "yes") H1 H2).
Defined.

Lemma get_choices_are_valid_witness :
  get_choices Sample.fever = inr (Some (values Sample.ynu))
  ∧ label_of (PEnumValue Sample.unknown) = Some "unknown"
  ∧ Sample.accept_all validate_enum (PEnumValue Sample.unknown) = inr tt
  ∧ validate_value Sample.accept_all Sample.fever
      (PEnumValue Sample.unknown) = inr tt.
Proof.
  assert (H1 : get_choices Sample.fever = inr (Some (values Sample.ynu)))
    by reflexivity.
  assert (H2 : label_of (PEnumValue Sample.unknown) = Some "unknown")
    by reflexivity.
  assert (H3 : Sample.accept_all validate_enum (PEnumValue Sample.unknown)
               = inr tt) by reflexivity.
  split; [exact H1 | split; [exact H2 | split; [exact H3 |]]].
  apply (proj1 (get_choices_are_valid Sample.accept_all Sample.fever
                  (values Sample.ynu) (PEnumValue Sample.unknown) "unknown"
                  H1 H2 H3)).
  repeat constructor.
Defined.

Lemma save_value_many_rows_witness :
  attr_pk Sample.height = Some 1
  ∧ (2 ≤ size (rows_for 1 Sample.patient1 Fixture.duplicated))%nat
  ∧ save_value Sample.height Sample.patient1 PNone 3 Fixture.duplicated
    = (inl MultipleObjectsReturned, Fixture.duplicated).
Proof.
  assert (H1 : attr_pk Sample.height = Some 1) by reflexivity.
  assert (H2 : (2 ≤ size (rows_for 1 Sample.patient1 Fixture.duplicated))%nat)
    by (vm_compute; lia).
  split; [exact H1 | split; [exact H2 |]].
  exact (proj2 (save_value_many_rows Sample.height 1 Sample.patient1 PNone 3
                  Fixture.duplicated H1) H2).
Defined.

Lemma save_value_frame_witness :
  attr_pk Sample.height = Some 1
  ∧ (size (rows_for 1 Sample.patient1 Sample.db_with_height) ≤ 1)%nat
  ∧ ∃ db', save_value Sample.height Sample.patient1 PNone 11
             Sample.db_with_height = (inr tt, db')
           ∧ attribute_table db' = attribute_table Sample.db_with_height.
Proof.
  assert (H1 : attr_pk Sample.height = Some 1) by reflexivity.
  assert (H2 : (size (rows_for 1 Sample.patient1 Sample.db_with_height)
                ≤ 1)%nat) by (vm_compute; lia).
  split; [exact H1 | split; [exact H2 |]].
  destruct (save_value_frame Sample.height 1 Sample.patient1 PNone 11
              Sample.db_with_height 1 Fixture.patient2 H1 H2)
    as (db' & Hrun & Hattrs & _).
  exists db'. split; [exact Hrun | exact Hattrs].
Defined.

Lemma save_value_write_then_erase_witness :
  attr_pk Sample.height = Some 1
  ∧ rows_for 1 Fixture.patient2 Sample.db_with_height = ∅
  ∧ is_empty (PInt 165) = false
  ∧ ∃ db1 db2,
      save_value Sample.height Fixture.patient2 (PInt 165) 11
        Sample.db_with_height = (inr tt, db1)
      ∧ save_value Sample.height Fixture.patient2 PNone 12 db1
        = (inr tt, db2)
      ∧ value_table db2 = value_table Sample.db_with_height.
Proof.
  assert (H1 : attr_pk Sample.height = Some 1) by reflexivity.
  assert (H2 : rows_for 1 Fixture.patient2 Sample.db_with_height = ∅)
    by (by vm_compute).
  assert (H3 : is_empty (PInt 165) = false) by reflexivity.
  split; [exact H1 | split; [exact H2 | split; [exact H3 |]]].
  exact (save_value_write_then_erase Sample.height 1 Fixture.patient2
           (PInt 165) 11 12 Sample.db_with_height H1 H2 H3).
Defined.

Lemma save_values_last_write_wins_witness :
  attr_pk Sample.height = Some 1
  ∧ (size (rows_for 1 Sample.patient1 Sample.empty_db) ≤ 1)%nat
  ∧ ∃ db', save_values Sample.height Sample.patient1
             ([(PInt 178, 10); (PNone, 11)] ++ [(PInt 180, 12)])%list
             Sample.empty_db = (inr tt, db').
Proof.
  assert (H1 : attr_pk Sample.height = Some 1) by reflexivity.
  assert (H2 : (size (rows_for 1 Sample.patient1 Sample.empty_db) ≤ 1)%nat)
    by (vm_compute; lia).
  split; [exact H1 | split; [exact H2 |]].
  destruct (save_values_last_write_wins Sample.height 1 Sample.patient1
              [(PInt 178, 10); (PNone, 11)] (PInt 180) 12 Sample.empty_db
              H1 H2) as (db' & Hrun & _).
  exists db'. exact Hrun.
Defined.

Lemma save_keeps_given_slug_witness :
  slug_is_blank Fixture.eye_colour_slugged = false
  ∧ save Sample.keep_name Sample.no_field_errors 20 Fixture.eye_colour_slugged
      Sample.db_with_eye_color
    = save (λ _, "") Sample.no_field_errors 20 Fixture.eye_colour_slugged
        Sample.db_with_eye_color.
Proof.
  assert (H1 : slug_is_blank Fixture.eye_colour_slugged = false)
    by reflexivity.
  split; [exact H1 |].
  exact (proj1 (save_keeps_given_slug Sample.keep_name Sample.no_field_errors 20
                  (λ _, "") Fixture.eye_colour_slugged
                  Sample.db_with_eye_color H1)).
Defined.

Lemma save_keeps_slugs_unique_witness :
  unique_slugs (attribute_table Sample.empty_db)
  ∧ save Sample.keep_name Sample.no_field_errors 20 Sample.eye_color
      Sample.empty_db
    = (inr Fixture.eye_color_saved, Fixture.db_after_eye_color)
  ∧ unique_slugs (attribute_table Fixture.db_after_eye_color).
Proof.
  assert (H1 : unique_slugs (attribute_table Sample.empty_db)).
  { intros k1 k2 a1 a2 Hk1. simpl in Hk1. rewrite lookup_empty in Hk1.
    discriminate Hk1. }
  assert (H2 : save Sample.keep_name Sample.no_field_errors 20 Sample.eye_color
                 Sample.empty_db
               = (inr Fixture.eye_color_saved, Fixture.db_after_eye_color))
    by (vm_compute; reflexivity).
  split; [exact H1 | split; [exact H2 |]].
  exact (proj1 (save_keeps_slugs_unique Sample.keep_name
                  Sample.no_field_errors 20 Sample.eye_color
                  Fixture.eye_color_saved Sample.empty_db
                  Fixture.db_after_eye_color H1 H2)).
Defined.

Lemma save_again_restamps_only_witness :
  save Sample.keep_name Sample.no_field_errors 20 Sample.eye_color
    Sample.empty_db
  = (inr Fixture.eye_color_saved, Fixture.db_after_eye_color)
  ∧ Sample.no_field_errors Fixture.db_after_eye_color
      Fixture.eye_color_saved = []
  ∧ ∃ k0,
      attr_pk Fixture.eye_color_saved = Some k0
      ∧ save Sample.keep_name Sample.no_field_errors 30
          Fixture.eye_color_saved Fixture.db_after_eye_color
        = (inr (with_modified 30 Fixture.eye_color_saved),
           mkDB (value_table Fixture.db_after_eye_color)
             (<[k0 := with_modified 30 Fixture.eye_color_saved]>
                (attribute_table Fixture.db_after_eye_color))
             (history Fixture.db_after_eye_color)).
Proof.
  assert (H1 : save Sample.keep_name Sample.no_field_errors 20 Sample.eye_color
                 Sample.empty_db
               = (inr Fixture.eye_color_saved, Fixture.db_after_eye_color))
    by (vm_compute; reflexivity).
  assert (H2 : Sample.no_field_errors Fixture.db_after_eye_color
                 Fixture.eye_color_saved = []) by reflexivity.
  split; [exact H1 | split; [exact H2 |]].
  destruct (save_again_restamps_only Sample.keep_name Sample.no_field_errors
              20 30 Sample.eye_color Fixture.eye_color_saved Sample.empty_db
              Fixture.db_after_eye_color H1 H2)
    as (k0 & Hpk & _ & _ & Hagain & _).
  exists k0. split; [exact Hpk | exact Hagain].
Defined.

Lemma natural_key_of_saved_witness :
  save Sample.keep_name Sample.no_field_errors 20 Sample.eye_color
    Sample.empty_db
  = (inr Fixture.eye_color_saved, Fixture.db_after_eye_color)
  ∧ ∃ k0, attr_pk Fixture.eye_color_saved = Some k0
          ∧ attribute_table Fixture.db_after_eye_color !! k0
            = Some Fixture.eye_color_saved.
Proof.
  assert (H1 : save Sample.keep_name Sample.no_field_errors 20 Sample.eye_color
                 Sample.empty_db
               = (inr Fixture.eye_color_saved, Fixture.db_after_eye_color))
    by (vm_compute; reflexivity).
  split; [exact H1 |].
  destruct (natural_key_of_saved Sample.keep_name Sample.no_field_errors 20
              Sample.eye_color Fixture.eye_color_saved Sample.empty_db
              Fixture.db_after_eye_color H1) as (k0 & Hpk & Hrow & _).
  exists k0. split; [exact Hpk | exact Hrow].
Defined.

Lemma clean_passed_I1 (self : Attribute) :
  clean self = inr tt →
  datatype self = TYPE_ENUM ↔ is_Some (enum_group self).
Proof.
  unfold clean.
  destruct (decide (datatype self = TYPE_ENUM)) as [Hdt | Hdt];
    destruct (enum_group self) as [g |].
  - intros _. split; [by eexists | done].
  - rewrite bool_decide_eq_true_2 by done.
    by rewrite (bool_decide_eq_false_2 (is_Some None)) by by intros [? ?].
  - rewrite bool_decide_eq_false_2 by done.
    by rewrite (bool_decide_eq_true_2 (is_Some (Some g))) by by eexists.
  - intros _. split; [done | by intros [? ?]].
Qed.

Section save_invariant.

Context (generate_slug : string → string).
Context (clean_fields : DB → Attribute → list (string * Message)).
Context (now : nat).

(** X17.  What [save] writes satisfies the invariant of [clean]: the
    attribute a successful [save] returns and stores has a group exactly
    when it is an enum, and it has a slug; so a table whose rows all have a
    group exactly when they are enums is still such a table afterwards. *)
Theorem save_keeps_I1 (self self' : Attribute) (db db' : DB) :
  map_Forall (λ _ a, datatype a = TYPE_ENUM ↔ is_Some (enum_group a))
             (attribute_table db) →
  save generate_slug clean_fields now self db = (inr self', db') →
  (datatype self' = TYPE_ENUM ↔ is_Some (enum_group self'))
  ∧ is_Some (slug self')
  ∧ map_Forall (λ _ a, datatype a = TYPE_ENUM ↔ is_Some (enum_group a))
               (attribute_table db').
Proof.
  intros Htbl Hsave.
  destruct (save_succeeds _ _ _ _ _ _ _ Hsave) as (Hslug & _ & Hself' & Hnew & _).
  set (self1 := if slug_is_blank self then _ else _) in *.
  assert (Hclean : clean self1 = inr tt).
  { unfold save in Hsave. fold self1 in Hsave.
    unfold mbind, M_bind in Hsave.
    pose proof (full_clean_store clean_fields self1 db) as Hst.
    destruct (full_clean clean_fields self1 db) as [[e | []] db1] eqn:Hfc;
      [done |].
    simpl in Hst; subst db1.
    by destruct (full_clean_passed _ _ _ Hfc) as [_ ?]. }
  assert (HI1 : datatype self' = TYPE_ENUM ↔ is_Some (enum_group self')).
  { rewrite Hself'. simpl. by apply clean_passed_I1. }
  split_and!; [done | by rewrite Hself' |].
  rewrite Hnew. by apply map_Forall_insert_2.
Qed.

End save_invariant.

Lemma save_keeps_I1_witness :
  map_Forall (λ _ a, datatype a = TYPE_ENUM ↔ is_Some (enum_group a))
             (attribute_table Sample.empty_db)
  ∧ save Sample.keep_name Sample.no_field_errors 20 Sample.eye_color
      Sample.empty_db
    = (inr Fixture.eye_color_saved, Fixture.db_after_eye_color)
  ∧ is_Some (slug Fixture.eye_color_saved).
Proof.
  assert (H1 : map_Forall
                 (λ _ a, datatype a = TYPE_ENUM ↔ is_Some (enum_group a))
                 (attribute_table Sample.empty_db))
    by apply map_Forall_empty.
  assert (H2 : save Sample.keep_name Sample.no_field_errors 20 Sample.eye_color
                 Sample.empty_db
               = (inr Fixture.eye_color_saved, Fixture.db_after_eye_color))
    by (vm_compute; reflexivity).
  split; [exact H1 | split; [exact H2 |]].
  exact (proj1 (proj2 (save_keeps_I1 Sample.keep_name Sample.no_field_errors 20
                         Sample.eye_color Fixture.eye_color_saved
                         Sample.empty_db Fixture.db_after_eye_color H1 H2))).
Defined.

Example odd_datatype_scenario :
  get_validators Fixture.odd = inl (KeyError "decimal")
  ∧ validate_value Sample.accept_all Fixture.odd (PInt 3)
    = inl (KeyError "decimal")
  ∧ __str__ Fixture.odd = "Price (decimal)"
  ∧ save_value Sample.height Sample.patient1 (PStr "") 3 Fixture.duplicated
    = (inl MultipleObjectsReturned, Fixture.duplicated).
Proof. by vm_compute. Qed.
